(** * go-cli-flag: a shallow embedding of [main.go]

    The program is a command-line client of GitHub's search API.  Its two
    workers, [findRepos] and [findUsers], build a GET request whose query
    string carries the search term, send it, reject every status outside
    [200,300), decode the JSON body into a Go struct and collect one field
    of every item.  The sub-commands [search-repos] and [search-users] parse
    their arguments with an empty [flag.FlagSet] and print the joined
    result.

    Go strings are byte sequences: they are modelled by [string] (a list of
    [ascii], one per byte).  The library functions that [main.go] calls
    ([net/url], [encoding/json], [flag], [strings]) are transcribed as far as
    the program exercises them; what the network and [net/http] do is an
    explicit parameter of the program section, and so is the value of the
    [-debug] flag, which [main] reads before it dispatches.  A run is
    observed through what it returns, what it prints on standard output
    and the requests it sends; what [flag] prints on standard error is
    left out.  *)

From Stdlib Require Import String Ascii List ZArith NArith Bool Lia.
From stdpp Require Import base option list gmap strings sorting.
Import ListNotations.

Local Open Scope string_scope.
Local Open Scope list_scope.
Local Set Warnings "-register-all".

(** ** Bytes *)

Definition code (c : ascii) : N := N_of_ascii c.

(** [lo <= c && c <= hi] on bytes. *)
Definition between (lo hi c : ascii) : bool :=
  (code lo <=? code c)%N && (code c <=? code hi)%N.

Definition byte_in (c : ascii) (cs : list ascii) : bool :=
  existsb (Ascii.eqb c) cs.

(** Every byte is one of the 256 constants: a property of bytes that
    computes is settled by trying them all. *)
Ltac each_byte c :=
  destruct c as [[] [] [] [] [] [] [] []].

(** ** Package [strings] *)

Module strings.

(** [strings.Cut(s, sep)] for a one-byte separator: the text before and
    after the first [sep], and whether [sep] occurs. *)
Fixpoint Cut (s : string) (sep : ascii) : string * string * bool :=
  match s with
  | EmptyString => (EmptyString, EmptyString, false)
  | String c r =>
      if Ascii.eqb c sep then (EmptyString, r, true)
      else let '(before, after, found) := Cut r sep in
           (String c before, after, found)
  end.

(** [strings.Contains(s, sep)] for a one-byte [sep]. *)
Fixpoint Contains (s : string) (sep : ascii) : bool :=
  match s with
  | EmptyString => false
  | String c r => Ascii.eqb c sep || Contains r sep
  end.

(** [strings.Count(s, sep)] for a one-byte [sep]. *)
Fixpoint Count (s : string) (sep : ascii) : N :=
  match s with
  | EmptyString => 0%N
  | String c r =>
      if Ascii.eqb c sep then N.succ (Count r sep) else Count r sep
  end.

(** [strings.Join(elems, sep)]. *)
Fixpoint Join (elems : list string) (sep : string) : string :=
  match elems with
  | [] => ""
  | [e] => e
  | e :: rest => e +:+ sep +:+ Join rest sep
  end.

End strings.

(** ** Package [net/url]: query escaping and [url.Values] *)

Module url.

Inductive error : Type :=
| EscapeError (s : string)
| SemicolonError
| TooManyParameters.

(** [shouldEscape(c, encodeQueryComponent)].  The alphanumerics and the
    marks [- _ . ~] pass; the reserved characters are escaped in a query
    component, and so is everything else. *)
Definition shouldEscape (c : ascii) : bool :=
  if between "a" "z" c || between "A" "Z" c || between "0" "9" c then false
  else if byte_in c ["-"; "_"; "."; "~"]%char then false
  else if byte_in c ["$"; "&"; "+"; ","; "/"; ":"; ";"; "="; "?"; "@"]%char
       then true
  else true.

Definition upperhex : string := "0123456789ABCDEF".

(** [upperhex[n]]. *)
Definition upperhex_at (n : N) : ascii :=
  match String.get (N.to_nat n) upperhex with
  | Some h => h
  | None => "0"%char
  end.

(** [escape(s, encodeQueryComponent)]: a space becomes [+], a byte that
    must be escaped becomes [%XX] in upper-case hexadecimal, any other byte
    is copied. *)
Fixpoint escape (s : string) : string :=
  match s with
  | EmptyString => EmptyString
  | String c r =>
      if Ascii.eqb c " " then String "+" (escape r)
      else if shouldEscape c then
        String "%" (String (upperhex_at (N.shiftr (code c) 4))
                      (String (upperhex_at (N.land (code c) 15)) (escape r)))
      else String c (escape r)
  end.

Definition QueryEscape (s : string) : string := escape s.

(** The bytes that structure a query string. *)
Definition separators : list ascii := ["&"; ";"; "="]%char.

Definition ishex (c : ascii) : bool :=
  between "0" "9" c || between "a" "f" c || between "A" "F" c.

Definition unhex (c : ascii) : N :=
  if between "0" "9" c then (code c - code "0")%N
  else if between "a" "f" c then (code c - code "a" + 10)%N
  else if between "A" "F" c then (code c - code "A" + 10)%N
  else 0%N.

(** The first three bytes of [s], as [EscapeError] reports them. *)
Definition first3 (s : string) : string := String.substring 0 3 s.

(** [unescape(s, encodeQueryComponent)].  Go validates every [%] in a first
    pass and builds the result in a second one; both passes walk the same
    bytes, so one traversal gives the same result: a [%] must be followed by
    two hexadecimal digits, [+] is a space. *)
Fixpoint unescape (s : string) : error + string :=
  match s with
  | EmptyString => inr EmptyString
  | String c r =>
      if Ascii.eqb c "%" then
        match r with
        | String h1 (String h2 r') =>
            if ishex h1 && ishex h2 then
              match unescape r' with
              | inr t =>
                  inr (String (ascii_of_N (N.lor (N.shiftl (unhex h1) 4)
                                                 (unhex h2))) t)
              | inl e => inl e
              end
            else inl (EscapeError (first3 s))
        | _ => inl (EscapeError (first3 s))
        end
      else
        match unescape r with
        | inr t => inr (String (if Ascii.eqb c "+" then " "%char else c) t)
        | inl e => inl e
        end
  end.

Definition QueryUnescape (s : string) : error + string := unescape s.

(** [type Values map[string][]string]. *)
Abbreviation Values := (gmap string (list string)).

(** [v[key]] of a Go map: the zero value (a nil slice) when [key] is absent. *)
Definition index (v : Values) (key : string) : list string :=
  default [] (v !! key).

(** [v.Set(key, value)]: [v[key] = []string{value}]. *)
Definition Values_Set (v : Values) (key value : string) : Values :=
  <[key := [value]]> v.

(** The body of the loop of [parseQuery], once per [&]-separated piece.
    [fuel] bounds the number of pieces; [ParseQuery] supplies more than the
    query has bytes. *)
Fixpoint parseQuery (fuel : nat) (m : Values) (err : option error)
    (query : string) : Values * option error :=
  match fuel with
  | O => (m, err)
  | S fuel' =>
      if String.eqb query "" then (m, err)
      else
        let '(key, query', _) := strings.Cut query "&" in
        if strings.Contains key ";" then
          parseQuery fuel' m (Some SemicolonError) query'
        else if String.eqb key "" then parseQuery fuel' m err query'
        else
          let '(key, value, _) := strings.Cut key "=" in
          match QueryUnescape key with
          | inl err1 =>
              parseQuery fuel' m (if err is Some _ then err else Some err1)
                query'
          | inr key =>
              match QueryUnescape value with
              | inl err1 =>
                  parseQuery fuel' m
                    (if err is Some _ then err else Some err1) query'
              | inr value =>
                  parseQuery fuel' (<[key := index m key ++ [value]]> m) err
                    query'
              end
          end
  end.

(** The number of parameters [parseQuery] accepts when the setting
    [urlmaxqueryparams] is left at its default. *)
Definition maxQueryParams : N := 10000.

(** [ParseQuery(query)].  Before its loop, [parseQuery] counts the
    parameters, one more than there are [&], and refuses a query that has
    too many: the map is then left empty. *)
Definition ParseQuery (query : string) : Values * option error :=
  if (maxQueryParams <? strings.Count query "&" + 1)%N
  then (∅, Some TooManyParameters)
  else parseQuery (S (String.length query)) ∅ None query.

(** [slices.Sort(keys)]: Go orders strings byte-wise, as [String.leb] does. *)
Definition sortKeys (keys : list string) : list string :=
  merge_sort String.le keys.

(** [v.Encode()]: the keys in sorted order, each value as
    [key=value] with both sides escaped, the pairs joined by [&]. *)
Definition Encode (v : Values) : string :=
  if decide (v = ∅) then ""
  else
    fold_left
      (fun buf k =>
         let keyEscaped := QueryEscape k in
         fold_left
           (fun buf val =>
              (if String.eqb buf "" then buf else buf +:+ "&")
                +:+ keyEscaped +:+ "=" +:+ QueryEscape val)
           (index v k) buf)
      (sortKeys (map fst (map_to_list v))) "".

(** [m[key] = append(m[key], value)]. *)
Definition add (m : Values) (pair : string * string) : Values :=
  <[fst pair := index m (fst pair) ++ [snd pair]]> m.

(** The pairs of a [Values] in the order [Encode] writes them: by sorted
    key, the values of a key in their order. *)
Definition pairs (v : Values) : list (string * string) :=
  flat_map (fun k => map (pair k) (index v k))
           (sortKeys (map fst (map_to_list v))).

(** One pair as [Encode] writes it. *)
Definition piece (pair : string * string) : string :=
  QueryEscape (fst pair) +:+ "=" +:+ QueryEscape (snd pair).

(** Pieces, each behind an [&]. *)
Fixpoint more (ps : list (string * string)) : string :=
  match ps with
  | [] => ""
  | p :: ps' => "&" +:+ piece p +:+ more ps'
  end.

(** Pieces joined by [&]. *)
Definition joined (ps : list (string * string)) : string :=
  match ps with
  | [] => ""
  | p :: ps' => piece p +:+ more ps'
  end.

(** [type URL struct]: the fields a plain [https] address fills. *)
Record URL : Type := {
  Scheme : string;
  Host : string;
  Path : string;
  RawQuery : string
}.

Definition withRawQuery (u : URL) (q : string) : URL :=
  {| Scheme := Scheme u; Host := Host u; Path := Path u; RawQuery := q |}.

(** [u.Query()]: [ParseQuery(u.RawQuery)] with the error dropped. *)
Definition Query (u : URL) : Values := fst (ParseQuery (RawQuery u)).

(** A predicate on bytes holds of every byte of a string. *)
Fixpoint all_bytes (p : ascii -> bool) (s : string) : bool :=
  match s with
  | EmptyString => true
  | String c r => p c && all_bytes p r
  end.

(** The bytes that [escape] writes: the ones it copies, [+] and what makes
    up [%XX]. *)
Definition escaped (c : ascii) : bool :=
  between "a" "z" c || between "A" "Z" c || between "0" "9" c
  || byte_in c ["-"; "_"; "."; "~"; "+"; "%"]%char.

(** The bytes of a query string that [Encode] writes. *)
Definition queryByte (c : ascii) : bool :=
  escaped c || byte_in c ["&"; "="]%char.

End url.


(** ** Package [encoding/json]: decoding into the program's types *)

Module json.

(** The JSON value a body holds, after the scanner has accepted the text and
    the strings are unquoted.  The members of an object keep their order and
    their repetitions, which the decoder sees. *)
Inductive Value : Type :=
| Null
| Bool (b : bool)
| Number (lit : string)
| Str (s : string)
| Array (elems : list Value)
| Object (members : list (string * Value)).

(** What [Decode] reports: the scanner's complaint about the text (a syntax
    error, an empty or unreadable body), or the first JSON value that does
    not fit the Go type it is stored into. *)
Inductive error : Type :=
| ScanError (msg : string)
| UnmarshalTypeError (value : string) (gotype : string).

(** The [Value] field of [UnmarshalTypeError]. *)
Definition describe (j : Value) : string :=
  match j with
  | Null => "null"
  | Bool _ => "bool"
  | Number _ => "number"
  | Str _ => "string"
  | Array _ => "array"
  | Object _ => "object"
  end.

(** [appendFoldedName]: the key of a JSON member, folded for the
    case-insensitive match.  An ASCII letter becomes its upper case.  Of the
    runes outside ASCII, only U+017F (long s, bytes C5 BF) and U+212A (the
    Kelvin sign, bytes E2 84 AA) fold to an ASCII letter, [S] and [K]; the
    other multi-byte runes fold among themselves and are copied here, which
    matches the same keys against an ASCII field name. *)
Fixpoint foldName (s : string) : string :=
  match s with
  | EmptyString => EmptyString
  | String c r =>
      if (code c <? 128)%N then
        String (if between "a" "z" c then ascii_of_N (code c - 32) else c)
               (foldName r)
      else
        match r with
        | String c1 r1 =>
            if (code c =? 197)%N && (code c1 =? 191)%N then
              String "S" (foldName r1)
            else
              match r1 with
              | String c2 r2 =>
                  if (code c =? 226)%N && (code c1 =? 132)%N
                     && (code c2 =? 170)%N
                  then String "K" (foldName r2)
                  else String c (foldName r)
              | EmptyString => String c (foldName r)
              end
        | EmptyString => String c EmptyString
        end
  end.

(** A field of a Go struct as the decoder knows it: the name its tag gives,
    and how a JSON value is stored into it. *)
Record field (T : Type) : Type := {
  name : string;
  store : Value -> T -> error + T
}.
Arguments name {T} _.
Arguments store {T} _ _ _.

(** The field a key selects: the one of that exact name, and failing that
    the first one whose folded name equals the folded key. *)
Definition findField {T : Type} (fields : list (field T)) (key : string)
  : option (field T) :=
  match find (fun f => String.eqb key (name f)) fields with
  | Some f => Some f
  | None =>
      find (fun f => String.eqb (foldName key) (foldName (name f))) fields
  end.

(** A key selects the field called [name]: it is that name, or folds to
    what the name folds to. *)
Definition selects (name key : string) : bool :=
  String.eqb key name || String.eqb (foldName key) (foldName name).

(** No member of an object selects the field called [name]. *)
Definition lacks (name : string) (members : list (string * Value)) : bool :=
  forallb (fun m => negb (selects name (fst m))) members.

(** [d.object(v)] for a struct [v]: the members are taken in order; a member
    whose key selects a field is stored into that field of the value built
    so far, any other member is skipped. *)
Fixpoint object {T : Type} (fields : list (field T))
    (members : list (string * Value)) (v : T) : error + T :=
  match members with
  | [] => inr v
  | (key, val) :: rest =>
      match findField fields key with
      | Some f =>
          match store f val v with
          | inr v' => object fields rest v'
          | inl e => inl e
          end
      | None => object fields rest v
      end
  end.

(** [d.value(v)] for [v] of a struct type: [null] leaves [v] as it is, an
    object fills the fields, anything else does not fit. *)
Definition storeStruct {T : Type} (gotype : string) (fields : list (field T))
    (j : Value) (v : T) : error + T :=
  match j with
  | Null => inr v
  | Object members => object fields members v
  | _ => inl (UnmarshalTypeError (describe j) gotype)
  end.

(** [d.value(v)] for [v] of type [string]. *)
Definition storeString (j : Value) (v : string) : error + string :=
  match j with
  | Null => inr v
  | Str s => inr s
  | _ => inl (UnmarshalTypeError (describe j) "string")
  end.

(** A Go slice: its elements, and the cells of its backing array past its
    length, which keep what an earlier decoding left there.  Cells past the
    capacity are fresh memory and hold the zero value, so the capacity is
    not recorded. *)
Record slice (A : Type) : Type := {
  elems : list A;
  spare : list A
}.
Arguments elems {A} _.
Arguments spare {A} _.

Definition nil {A : Type} : slice A := {| elems := []; spare := [] |}.

(** The loop of [d.array(v)]: element [i] of the JSON array is stored into
    cell [i] of the backing array, which the decoder does not clear first. *)
Fixpoint array {A : Type} (zero : A) (storeElem : Value -> A -> error + A)
    (xs : list Value) (cells : list A) : error + list A :=
  match xs with
  | [] => inr []
  | x :: xs' =>
      match storeElem x (hd zero cells) with
      | inl e => inl e
      | inr a =>
          match array zero storeElem xs' (tl cells) with
          | inl e => inl e
          | inr rest => inr (a :: rest)
          end
      end
  end.

(** [d.value(v)] for [v] of a slice type: [null] makes [v] nil, an empty
    array makes it a new empty slice, another array is decoded cell by
    cell and sets the length. *)
Definition storeSlice {A : Type} (gotype : string) (zero : A)
    (storeElem : Value -> A -> error + A) (j : Value) (v : slice A)
  : error + slice A :=
  match j with
  | Null => inr nil
  | Array [] => inr {| elems := []; spare := [] |}
  | Array xs =>
      let cells := elems v ++ spare v in
      match array zero storeElem xs cells with
      | inl e => inl e
      | inr decoded =>
          inr {| elems := decoded; spare := skipn (length xs) cells |}
      end
  | _ => inl (UnmarshalTypeError (describe j) gotype)
  end.

(** [json.NewDecoder(body).Decode(&v)]: [body] is what the scanner makes of
    the response body, its first JSON value or its complaint. *)
Definition Decode {T : Type} (storeT : Value -> T -> error + T)
    (body : error + Value) (v : T) : error + T :=
  match body with
  | inl e => inl e
  | inr j => storeT j v
  end.

End json.

(** ** Package [strconv] *)

Module strconv.

(** [strconv.ParseBool(str)]: [None] is the syntax error. *)
Definition ParseBool (str : string) : option bool :=
  if existsb (String.eqb str) ["1"; "t"; "T"; "true"; "TRUE"; "True"]
  then Some true
  else if existsb (String.eqb str) ["0"; "f"; "F"; "false"; "FALSE"; "False"]
  then Some false
  else None.

End strconv.

(** ** Package [flag]: a flag set that defines no flag *)

Module flag.

(** [flagSet.Parse(args)] either returns, and [flagSet.Args()] is then what
    is left of [args], or ends the process: the flag sets of this program
    are made with [flag.ExitOnError]. *)
Inductive outcome : Type :=
| Parsed (args : list string)
| Exit (code : Z).

(** [Parse] for a flag set with no flag defined.  [parseOne] stops at the
    first argument that is not flag-like, and consumes a lone [--]; any
    other argument that starts with [-] is an error, since no flag can
    match it: status 0 after [-h] or [-help], status 2 otherwise. *)
Definition Parse (arguments : list string) : outcome :=
  match arguments with
  | [] => Parsed []
  | s :: rest =>
      match s with
      | String c0 (String c1 s2) =>
          if negb (Ascii.eqb c0 "-") then Parsed arguments
          else
            let twoMinuses := Ascii.eqb c1 "-" in
            if twoMinuses && String.eqb s2 "" then Parsed rest
            else
              let name := if twoMinuses then s2 else String c1 s2 in
              match name with
              | EmptyString => Exit 2
              | String n0 _ =>
                  if Ascii.eqb n0 "-" || Ascii.eqb n0 "=" then Exit 2
                  else
                    let name := fst (fst (strings.Cut name "=")) in
                    if String.eqb name "help" || String.eqb name "h"
                    then Exit 0
                    else Exit 2
              end
      | _ => Parsed arguments
      end
  end.

(** [flag.Parse()] of the program: the flag set [flag.CommandLine], which
    is made with [flag.ExitOnError] and defines the one boolean flag
    [debug].  It returns, and then [*debug] and [flag.Args()] are known, or
    it ends the process. *)
Inductive commandLine : Type :=
| Flags (debug : bool) (args : list string)
| Stop (code : Z).

(** [parseOne] until it sees no flag.  [debug] is the value of the flag so
    far.  A boolean flag takes no argument: [-debug] sets it, and
    [-debug=v] sets it to what [strconv.ParseBool] reads in [v]. *)
Fixpoint ParseCommandLine (debug : bool) (arguments : list string)
  : commandLine :=
  match arguments with
  | [] => Flags debug []
  | s :: rest =>
      match s with
      | String c0 (String c1 s2) =>
          if negb (Ascii.eqb c0 "-") then Flags debug arguments
          else
            let twoMinuses := Ascii.eqb c1 "-" in
            if twoMinuses && String.eqb s2 "" then Flags debug rest
            else
              let name := if twoMinuses then s2 else String c1 s2 in
              match name with
              | EmptyString => Stop 2
              | String n0 _ =>
                  if Ascii.eqb n0 "-" || Ascii.eqb n0 "=" then Stop 2
                  else
                    let '(name, value, hasValue) := strings.Cut name "=" in
                    if String.eqb name "debug" then
                      if hasValue then
                        match strconv.ParseBool value with
                        | Some b => ParseCommandLine b rest
                        | None => Stop 2
                        end
                      else ParseCommandLine true rest
                    else if String.eqb name "help" || String.eqb name "h"
                    then Stop 0
                    else Stop 2
              end
      | _ => Flags debug arguments
      end
  end.

(** An argument that [parseOne] takes for a flag or for the terminator:
    two bytes or more, the first one [-]. *)
Definition flagLike (s : string) : bool :=
  match s with
  | String c0 (String _ _) => Ascii.eqb c0 "-"
  | _ => false
  end.

End flag.

(** ** Package [errors] *)

Module errors.

(** A Go error made by [errors.New] or [fmt.Errorf]: all that the program
    and its caller read of it is the text. *)
Record error : Type := New { Error : string }.

End errors.

(** ** Package [net/http]: requests and responses *)

Module http.

Definition MethodGet : string := "GET".

Record Request : Type := {
  Method : string;
  URL : url.URL
}.

(** [req.URL.RawQuery = q]. *)
Definition setRawQuery (req : Request) (q : string) : Request :=
  {| Method := Method req; URL := url.withRawQuery (URL req) q |}.

(** A response: its status, and its body as the JSON scanner reads it. *)
Record Response : Type := {
  StatusCode : Z;
  Body : json.error + json.Value
}.

End http.

(** ** Package [main] *)

Module main.

(** What a run does to the outside: text written to standard output, and
    requests handed to the HTTP client. *)
Inductive event : Type :=
| Stdout (text : string)
| Send (req : http.Request).

(** A computation with effects: the events it causes, in order, and its
    result. *)
Definition IO (A : Type) : Type := (list event * A)%type.

Definition ret {A : Type} (a : A) : IO A := ([], a).

Definition bind {A B : Type} (m : IO A) (k : A -> IO B) : IO B :=
  let '(t1, a) := m in
  let '(t2, b) := k a in
  (t1 ++ t2, b).

Notation "x <- m ;; k" := (bind m (fun x => k))
  (at level 62, m at next level, right associativity).
Notation "m ;;; k" := (bind m (fun _ => k))
  (at level 62, right associativity).

Definition trace {A : Type} (m : IO A) : list event := fst m.
Definition result {A : Type} (m : IO A) : A := snd m.

(** The requests a computation sent. *)
Definition sent {A : Type} (m : IO A) : list http.Request :=
  omap (fun e => match e with Send req => Some req | Stdout _ => None end)
       (trace m).

(** What a sub-command does: it returns to its caller, or [os.Exit] ends
    the process inside it. *)
Inductive completion (A : Type) : Type :=
| Returns (a : A)
| Exits (code : Z).
Arguments Returns {A} _.
Arguments Exits {A} _.

Definition newline : string := String (ascii_of_N 10) EmptyString.

(** [fmt.Println(s)]. *)
Definition Println (s : string) : IO unit := ([Stdout (s +:+ newline)], tt).

(** The verbs [%v] and [%s] applied to a [[]string]. *)
Definition formatSlice (xs : list string) : string :=
  "[" +:+ strings.Join xs " " +:+ "]".

(** The two struct types of [findRepos]. *)
Record repo : Type := { FullName : string }.
Record repoSearchResult : Type := { repoItems : json.slice repo }.

(** The two struct types of [findUsers]. *)
Record user : Type := { Login : string }.
Record userSearchResult : Type := { userItems : json.slice user }.

(** The zero values that [searchResult{}] and a fresh slice cell hold. *)
Definition zeroRepo : repo := {| FullName := "" |}.
Definition zeroRepoSearchResult : repoSearchResult :=
  {| repoItems := json.nil |}.
Definition zeroUser : user := {| Login := "" |}.
Definition zeroUserSearchResult : userSearchResult :=
  {| userItems := json.nil |}.

Definition mapr {E A B : Type} (f : A -> B) (r : E + A) : E + B :=
  match r with
  | inl e => inl e
  | inr a => inr (f a)
  end.

(** [FullName string `json:"full_Name"`]. *)
Definition repoFields : list (json.field repo) :=
  [ {| json.name := "full_Name";
       json.store := fun j r =>
         mapr (fun s => {| FullName := s |}) (json.storeString j (FullName r))
    |} ].

Definition storeRepo : json.Value -> repo -> json.error + repo :=
  json.storeStruct "main.repo" repoFields.

(** [Items []repo `json:"items"`]. *)
Definition repoSearchResultFields : list (json.field repoSearchResult) :=
  [ {| json.name := "items";
       json.store := fun j r =>
         mapr (fun s => {| repoItems := s |})
              (json.storeSlice "[]main.repo" zeroRepo storeRepo j
                 (repoItems r))
    |} ].

Definition storeRepoSearchResult
  : json.Value -> repoSearchResult -> json.error + repoSearchResult :=
  json.storeStruct "main.searchResult" repoSearchResultFields.

(** [Login string `json:"login"`]. *)
Definition userFields : list (json.field user) :=
  [ {| json.name := "login";
       json.store := fun j u =>
         mapr (fun s => {| Login := s |}) (json.storeString j (Login u))
    |} ].

Definition storeUser : json.Value -> user -> json.error + user :=
  json.storeStruct "main.user" userFields.

(** [Items []user `json:"items"`]. *)
Definition userSearchResultFields : list (json.field userSearchResult) :=
  [ {| json.name := "items";
       json.store := fun j r =>
         mapr (fun s => {| userItems := s |})
              (json.storeSlice "[]main.user" zeroUser storeUser j
                 (userItems r))
    |} ].

Definition storeUserSearchResult
  : json.Value -> userSearchResult -> json.error + userSearchResult :=
  json.storeStruct "main.searchResult" userSearchResultFields.

(** The loop [for _, r := range items { repos = append(repos, f(r)) }]
    started from [make([]string, 0)]. *)
Definition collect {A : Type} (f : A -> string) (items : list A)
  : list string :=
  fold_left (fun repos r => repos ++ [f r]) items [].

(** The request after [query.Set] and [query.Encode]: the one of
    [http.NewRequest] with the term as its query. *)
Definition withTerm (req : http.Request) (term : string) : http.Request :=
  http.setRawQuery req
    (url.Encode (url.Values_Set (url.Query (http.URL req)) "q" term)).

(** The two kinds of search, and what each one fixes: the endpoint, the
    type of an item, the field taken from it and the name its tag gives. *)
Inductive kind : Type := Repositories | Users.

Definition endpoint (k : kind) : string :=
  match k with
  | Repositories => "https://api.github.com/search/repositories"
  | Users => "https://api.github.com/search/users"
  end.

Definition item (k : kind) : Type :=
  match k with
  | Repositories => repo
  | Users => user
  end.

Definition extract (k : kind) : item k -> string :=
  match k with
  | Repositories => FullName
  | Users => Login
  end.

Definition fieldName (k : kind) : string :=
  match k with
  | Repositories => "full_Name"
  | Users => "login"
  end.

Definition zeroItem (k : kind) : item k :=
  match k with
  | Repositories => zeroRepo
  | Users => zeroUser
  end.

Definition storeItem (k : kind)
  : json.Value -> item k -> json.error + item k :=
  match k with
  | Repositories => storeRepo
  | Users => storeUser
  end.

(** The items of the envelope a body decodes to, from [searchResult{}]. *)
Definition decodeItems (k : kind) (body : json.error + json.Value)
  : json.error + list (item k) :=
  match k with
  | Repositories =>
      mapr (fun results => json.elems (repoItems results))
           (json.Decode storeRepoSearchResult body zeroRepoSearchResult)
  | Users =>
      mapr (fun results => json.elems (userItems results))
           (json.Decode storeUserSearchResult body zeroUserSearchResult)
  end.

(** The one error value the two workers return. *)
Definition searchError : errors.error :=
  errors.New "failed to connect to github".

(** The ways a search can fail. *)
Inductive cause : Type :=
| RequestConstruction
| Transport
| BadStatus
| DecodeFailure.

Section Program.

(** The value of the [-debug] flag. *)
Variable debug : bool.

(** The errors of [net/http] and the text [%v] prints for them and for the
    decoder's errors: neither is reproduced. *)
Variable httpError : Type.
Variable httpErrorText : httpError -> string.
Variable jsonErrorText : json.error -> string.

(** [http.NewRequest(method, url, nil)]. *)
Variable NewRequest : string -> string -> httpError + http.Request.

(** What [http.DefaultClient.Do] answers to a request: the network. *)
Variable roundTrip : http.Request -> httpError + http.Response.

(** [http.DefaultClient.Do(req)]. *)
Definition Do (req : http.Request) : IO (httpError + http.Response) :=
  ([Send req], roundTrip req).

Definition printDebug (msg : string) : IO unit :=
  if debug then ([Stdout ("[DEBUG]: " +:+ msg +:+ newline)], tt)
  else ret tt.

(** A Go slice result: [None] is the nil slice. *)
Definition findRepos (term : string)
  : IO (option (list string) * option errors.error) :=
  (* Prepare github repository search url. *)
  match NewRequest http.MethodGet
          "https://api.github.com/search/repositories" with
  | inl err =>
      printDebug (httpErrorText err) ;;;
      ret (None, Some (errors.New "failed to connect to github"))
  | inr req =>
      let query := url.Query (http.URL req) in
      let query := url.Values_Set query "q" term in
      let req := http.setRawQuery req (url.Encode query) in
      (* Make http request. *)
      r <- Do req ;;
      match r with
      | inl err =>
          printDebug (httpErrorText err) ;;;
          ret (None, Some (errors.New "failed to connect to github"))
      | inr res =>
          if (http.StatusCode res <? 200)%Z || (http.StatusCode res >=? 300)%Z
          then ret (None, Some (errors.New "failed to connect to github"))
          else
            (* Parse the json response. *)
            match json.Decode storeRepoSearchResult (http.Body res)
                    zeroRepoSearchResult with
            | inl err =>
                printDebug (jsonErrorText err) ;;;
                ret (None, Some (errors.New "failed to connect to github"))
            | inr results =>
                (* Extract out the repo names. *)
                let repos :=
                  collect FullName (json.elems (repoItems results)) in
                ret (Some repos, None)
            end
      end
  end.

Definition findUsers (term : string)
  : IO (option (list string) * option errors.error) :=
  (* Prepare github repository search url. *)
  match NewRequest http.MethodGet "https://api.github.com/search/users" with
  | inl err =>
      printDebug (httpErrorText err) ;;;
      ret (None, Some (errors.New "failed to connect to github"))
  | inr req =>
      let query := url.Query (http.URL req) in
      let query := url.Values_Set query "q" term in
      let req := http.setRawQuery req (url.Encode query) in
      (* Make http request. *)
      r <- Do req ;;
      match r with
      | inl err =>
          printDebug (httpErrorText err) ;;;
          ret (None, Some (errors.New "failed to connect to github"))
      | inr res =>
          if (http.StatusCode res <? 200)%Z || (http.StatusCode res >=? 300)%Z
          then ret (None, Some (errors.New "failed to connect to github"))
          else
            (* Parse the json response. *)
            match json.Decode storeUserSearchResult (http.Body res)
                    zeroUserSearchResult with
            | inl err =>
                printDebug (jsonErrorText err) ;;;
                ret (None, Some (errors.New "failed to connect to github"))
            | inr results =>
                (* Extract out the repo names. *)
                let repos := collect Login (json.elems (userItems results)) in
                ret (Some repos, None)
            end
      end
  end.

(** The worker of a kind. *)
Definition search (k : kind) (term : string)
  : IO (option (list string) * option errors.error) :=
  match k with
  | Repositories => findRepos term
  | Users => findUsers term
  end.

(** The search for [term] reaches the network, which answers [res]. *)
Definition answered (k : kind) (term : string) (res : http.Response)
  : Prop :=
  exists req,
    NewRequest http.MethodGet (endpoint k) = inr req /\
    roundTrip (withTerm req term) = inr res.

Definition ok2xx (res : http.Response) : Prop :=
  (200 <= http.StatusCode res < 300)%Z.

(** The search for [term] meets the failure [c]. *)
Definition suffers (k : kind) (c : cause) (term : string) : Prop :=
  match c with
  | RequestConstruction =>
      exists err, NewRequest http.MethodGet (endpoint k) = inl err
  | Transport =>
      exists req err,
        NewRequest http.MethodGet (endpoint k) = inr req /\
        roundTrip (withTerm req term) = inl err
  | BadStatus =>
      exists res, answered k term res /\ ~ ok2xx res
  | DecodeFailure =>
      exists res err,
        answered k term res /\ ok2xx res /\
        decodeItems k (http.Body res) = inl err
  end.

Definition executeSearchRepos (args : list string)
  : IO (completion (option errors.error)) :=
  match flag.Parse args with
  | flag.Exit status => ret (Exits status)
  | flag.Parsed flagSetArgs =>
      printDebug ("[search-repos] Args: " +:+ formatSlice flagSetArgs) ;;;
      match flagSetArgs with
      | [] =>
          ret (Returns (Some (errors.New
            "provide a search term for searching repos: search-repos <search_term>")))
      | searchTerm :: _ =>
          printDebug ("[search-repos] Search Term: " +:+ searchTerm) ;;;
          found <- findRepos searchTerm ;;
          match found with
          | (_, Some err) => ret (Returns (Some err))
          | (repos, None) =>
              Println (strings.Join (default [] repos) ", ") ;;;
              ret (Returns None)
          end
      end
  end.

Definition executeSearchUsers (args : list string)
  : IO (completion (option errors.error)) :=
  match flag.Parse args with
  | flag.Exit status => ret (Exits status)
  | flag.Parsed flagSetArgs =>
      printDebug ("[search-repos] Args: " +:+ formatSlice flagSetArgs) ;;;
      match flagSetArgs with
      | [] =>
          ret (Returns (Some (errors.New
            "provide a search term for searching repos: search-repos <search_term>")))
      | searchTerm :: _ =>
          printDebug ("[search-repos] Search Term: " +:+ searchTerm) ;;;
          found <- findUsers searchTerm ;;
          match found with
          | (_, Some err) => ret (Returns (Some err))
          | (users, None) =>
              Println (strings.Join (default [] users) ", ") ;;;
              ret (Returns None)
          end
      end
  end.

Definition executeCommand (command : string) (args : list string)
  : IO (completion (option errors.error)) :=
  printDebug ("Command: " +:+ command) ;;;
  printDebug ("Args: " +:+ formatSlice args) ;;;
  if String.eqb command "search-repos" then executeSearchRepos args
  else if String.eqb command "search-users" then executeSearchUsers args
  else
    ret (Returns (Some (errors.New
      ("invalid command: '" +:+ command +:+ "'")))).

End Program.

(** The sub-command of a kind. *)
Definition commandOf (k : kind) : string :=
  match k with
  | Repositories => "search-repos"
  | Users => "search-users"
  end.

(** An item that carries the name [n]: an object with one member that
    selects the extracted field, a string. *)
Definition carries (k : kind) (x : json.Value) (n : string) : Prop :=
  exists pre key post,
    x = json.Object (pre ++ (key, json.Str n) :: post) /\
    json.lacks (fieldName k) pre = true /\
    json.selects (fieldName k) key = true /\
    json.lacks (fieldName k) post = true.

(** An item that carries no name: [null], or an object whose members for
    the extracted field, if any, are all [null]. *)
Definition blank (k : kind) (x : json.Value) : Prop :=
  x = json.Null \/
  exists members,
    x = json.Object members /\
    forall key v, In (key, v) members ->
      json.selects (fieldName k) key = true -> v = json.Null.

Definition usage : string :=
  "Specify a command to execute:" +:+ newline
  +:+ "  - search-repos: Search for github repos" +:+ newline
  +:+ "  - search-users: Serach for users on github.".

(** How the process ends: with a status ([main] returning is status 0), or
    in a run-time panic. *)
Inductive termination : Type :=
| Exit (status : Z)
| Panics.

(** [main], for [os.Args[1:] = args]. *)
Definition main (httpError : Type) (httpErrorText : httpError -> string)
    (jsonErrorText : json.error -> string)
    (NewRequest : string -> string -> httpError + http.Request)
    (roundTrip : http.Request -> httpError + http.Response)
    (args : list string) : IO termination :=
  match flag.ParseCommandLine false args with
  | flag.Stop status => ret (Exit status)
  | flag.Flags debug flagArgs =>
      if (S (length args) <? 2)%nat then
        Println usage ;;; ret (Exit 1)
      else
        match flagArgs with
        | [] => ret Panics
        | command :: rest =>
            r <- executeCommand debug httpError httpErrorText jsonErrorText
                   NewRequest roundTrip command rest ;;
            match r with
            | Exits status => ret (Exit status)
            | Returns (Some err) =>
                Println (errors.Error err) ;;; ret (Exit 1)
            | Returns None => ret (Exit 0)
            end
        end
  end.

End main.

(** ** A world to run the program in *)

Module sample.

(** A request constructor for the addresses of the program: every address
    is accepted and has no query of its own. *)
Definition NewRequest (method address : string) : string + http.Request :=
  inr {| http.Method := method;
         http.URL := {| url.Scheme := "https";
                        url.Host := "api.github.com";
                        url.Path := String.substring 22
                                      (String.length address - 22) address;
                        url.RawQuery := "" |} |}.

(** A network that answers every request with one status and body. *)
Definition answer (status : Z) (body : json.error + json.Value)
  : http.Request -> string + http.Response :=
  fun _ => inr {| http.StatusCode := status; http.Body := body |}.

(** A network that is down. *)
Definition down : http.Request -> string + http.Response :=
  fun _ => inl "dial tcp: connection refused".

Definition jsonErrorText (e : json.error) : string :=
  match e with
  | json.ScanError msg => msg
  | json.UnmarshalTypeError value gotype =>
      "json: cannot unmarshal " +:+ value +:+ " into Go value of type "
        +:+ gotype
  end.

(** The workers and the dispatcher in this world. *)
Definition findRepos (debug : bool)
    (net : http.Request -> string + http.Response) :=
  main.findRepos debug string id jsonErrorText NewRequest net.

Definition findUsers (debug : bool)
    (net : http.Request -> string + http.Response) :=
  main.findUsers debug string id jsonErrorText NewRequest net.

Definition search (debug : bool)
    (net : http.Request -> string + http.Response) :=
  main.search debug string id jsonErrorText NewRequest net.

Definition executeCommand (debug : bool)
    (net : http.Request -> string + http.Response) :=
  main.executeCommand debug string id jsonErrorText NewRequest net.

(** The envelope [{"items":[{"full_name":"golang/go"},{"full_name":"golang/tools"}]}]. *)
Definition golang : json.Value :=
  json.Object
    [("items",
      json.Array
        [json.Object [("full_name", json.Str "golang/go")];
         json.Object [("full_name", json.Str "golang/tools")]])].

Definition main (net : http.Request -> string + http.Response) :=
  main.main string id jsonErrorText NewRequest net.

End sample.

(** ** The model on small inputs *)

Example escape_space_amp :
  url.QueryEscape "go lang&c=1" = "go+lang%26c%3D1".
Proof. reflexivity. Qed.

Example unescape_bad_percent :
  url.QueryUnescape "100%zz" = inl (url.EscapeError "%zz").
Proof. reflexivity. Qed.

Example encode_two_keys :
  url.Encode (<["q" := ["a b"]]> (<["page" := ["2"; "3"]]> ∅))
  = "page=2&page=3&q=a+b".
Proof. vm_compute. reflexivity. Qed.

Example parse_two_pieces :
  url.ParseQuery "q=a+b%26&page=2"
  = (<["q" := ["a b&"]]> (<["page" := ["2"]]> ∅), None).
Proof. vm_compute. reflexivity. Qed.

Example parse_at_the_limit :
  url.ParseQuery (N.iter 9999 (String "&"%char) "") = (∅, None) /\
  url.ParseQuery (N.iter 10000 (String "&"%char) "")
  = (∅, Some url.TooManyParameters).
Proof. split; vm_compute; reflexivity. Qed.

Example fold_full_name :
  json.foldName "full_name" = "FULL_NAME" /\
  json.foldName "full_Name" = "FULL_NAME" /\
  json.selects "full_Name" "full_name" = true /\
  json.selects "full_Name" "fullname" = false.
Proof. repeat split; reflexivity. Qed.

(** A later member for the same field is stored into the cells the earlier
    one filled. *)
Example items_twice :
  main.decodeItems main.Repositories
    (inr (json.Object
       [("items", json.Array [json.Object [("full_name", json.Str "a")]]);
        ("ITEMS", json.Array [json.Object []])]))
  = inr [{| main.FullName := "a" |}].
Proof. reflexivity. Qed.

Example items_not_a_list :
  main.decodeItems main.Users
    (inr (json.Object [("items", json.Str "none")]))
  = inl (json.UnmarshalTypeError "string" "[]main.user").
Proof. reflexivity. Qed.

Example parse_arguments :
  flag.Parse ["golang"; "-x"] = flag.Parsed ["golang"; "-x"] /\
  flag.Parse ["--"; "-x"] = flag.Parsed ["-x"] /\
  flag.Parse ["-x"; "golang"] = flag.Exit 2 /\
  flag.Parse ["--help"] = flag.Exit 0 /\
  flag.Parse ["-"] = flag.Parsed ["-"].
Proof. repeat split; reflexivity. Qed.

Example users_torvalds :
  sample.findUsers true
    (sample.answer 200
       (inr (json.Object
          [("items", json.Array [json.Object [("login", json.Str "torvalds")]])])))
    "torvalds"
  = ([main.Send
        {| http.Method := "GET";
           http.URL := {| url.Scheme := "https";
                          url.Host := "api.github.com";
                          url.Path := "/search/users";
                          url.RawQuery := "q=torvalds" |} |}],
     (Some ["torvalds"], None)).
Proof. vm_compute. reflexivity. Qed.

Example network_down :
  sample.findRepos true sample.down "golang"
  = ([main.Send
        {| http.Method := "GET";
           http.URL := {| url.Scheme := "https";
                          url.Host := "api.github.com";
                          url.Path := "/search/repositories";
                          url.RawQuery := "q=golang" |} |};
      main.Stdout
        ("[DEBUG]: dial tcp: connection refused" +:+ main.newline)],
     (None, Some main.searchError)).
Proof. vm_compute. reflexivity. Qed.

Example search_repos_prints :
  sample.executeCommand false (sample.answer 200 (inr sample.golang))
    "search-repos" ["golang"]
  = ([main.Send
        {| http.Method := "GET";
           http.URL := {| url.Scheme := "https";
                          url.Host := "api.github.com";
                          url.Path := "/search/repositories";
                          url.RawQuery := "q=golang" |} |};
      main.Stdout ("golang/go, golang/tools" +:+ main.newline)],
     main.Returns None).
Proof. vm_compute. reflexivity. Qed.

Example unknown_command :
  main.result (sample.executeCommand false sample.down "search" [])
  = main.Returns (Some (errors.New "invalid command: 'search'")).
Proof. reflexivity. Qed.
(** * Properties *)

(** ** Query escaping *)

Lemma unescape_escape_cons c r :
  url.unescape (url.escape (String c r)) =
  match url.unescape (url.escape r) with
  | inr t => inr (String c t)
  | inl e => inl e
  end.
Proof. each_byte c; reflexivity. Qed.

Lemma unescape_escape s : url.unescape (url.escape s) = inr s.
Proof.
  induction s as [|c r IH]; [reflexivity|].
  rewrite unescape_escape_cons, IH. reflexivity.
Qed.

Lemma separator_cases sep :
  byte_in sep url.separators = true ->
  sep = "&"%char \/ sep = ";"%char \/ sep = "="%char.
Proof.
  unfold byte_in, url.separators. simpl. intros H.
  repeat (apply orb_true_iff in H; destruct H as [H|H]);
    try (apply Ascii.eqb_eq in H; auto); discriminate.
Qed.

Lemma escape_cons_separator c r sep :
  byte_in sep url.separators = true ->
  strings.Contains (url.escape (String c r)) sep
  = strings.Contains (url.escape r) sep.
Proof.
  intros H. destruct (separator_cases sep H) as [-> | [-> | ->]];
    each_byte c; reflexivity.
Qed.

Lemma escape_no_separator s sep :
  byte_in sep url.separators = true ->
  strings.Contains (url.escape s) sep = false.
Proof.
  intros H. induction s as [|c r IH]; [reflexivity|].
  rewrite escape_cons_separator; assumption.
Qed.

Lemma Cut_absent s sep :
  strings.Contains s sep = false -> strings.Cut s sep = (s, "", false).
Proof.
  induction s as [|c r IH]; simpl; [reflexivity|].
  intros H. apply orb_false_iff in H as [Hc Hr].
  rewrite Hc, (IH Hr). reflexivity.
Qed.

Lemma Query_no_query u : url.RawQuery u = "" -> url.Query u = ∅.
Proof. unfold url.Query. intros ->. reflexivity. Qed.

Lemma Encode_q term :
  url.Encode (url.Values_Set ∅ "q" term) = "q=" +:+ url.QueryEscape term.
Proof.
  unfold url.Encode, url.Values_Set.
  destruct (decide (<["q" := [term]]> (∅ : url.Values) = ∅)) as [E|_].
  { exfalso. exact (insert_non_empty (M:=gmap string) _ _ _ E). }
  rewrite insert_empty, map_to_list_singleton. simpl.
  unfold url.index. rewrite lookup_singleton_eq. reflexivity.
Qed.

Lemma Count_absent s sep :
  strings.Contains s sep = false -> strings.Count s sep = 0%N.
Proof.
  induction s as [|c r IH]; simpl; [reflexivity|].
  intros H. apply orb_false_iff in H as [Hc Hr].
  rewrite Hc. apply IH, Hr.
Qed.

Lemma ParseQuery_q term :
  url.ParseQuery ("q=" +:+ url.QueryEscape term) = ({["q" := [term]]}, None).
Proof.
  unfold url.ParseQuery, url.QueryEscape.
  change ("q=" +:+ url.escape term)
    with (String "q" (String "=" (url.escape term))).
  set (e := url.escape term).
  assert (Hamp : strings.Contains (String "q" (String "=" e)) "&" = false).
  { simpl. apply escape_no_separator. reflexivity. }
  rewrite (Count_absent _ _ Hamp).
  change (url.maxQueryParams <? 0 + 1)%N with false. cbv iota.
  assert (Hsemi : strings.Contains (String "q" (String "=" e)) ";" = false).
  { simpl. apply escape_no_separator. reflexivity. }
  cbn [String.length url.parseQuery].
  change (String.eqb (String "q" (String "=" e)) "") with false. cbv iota.
  rewrite (Cut_absent _ _ Hamp), Hsemi.
  change (String.eqb (String "q" (String "=" e)) "") with false. cbv iota.
  change (strings.Cut (String "q" (String "=" e)) "=") with ("q", e, true).
  cbv iota beta.
  change (url.QueryUnescape "q") with (@inr url.error string "q").
  cbv iota beta. unfold url.QueryUnescape, e. rewrite unescape_escape.
  reflexivity.
Qed.

(** ** Decoding *)

Section Decoding.

Context {T : Type} (f : json.field T).

Lemma findField_single key :
  json.findField [f] key
  = if json.selects (json.name f) key then Some f else None.
Proof.
  unfold json.findField, json.selects. simpl.
  destruct (String.eqb key (json.name f)); [reflexivity|].
  simpl. destruct (String.eqb _ _); reflexivity.
Qed.

Lemma object_lacks members v :
  json.lacks (json.name f) members = true ->
  json.object [f] members v = inr v.
Proof.
  induction members as [|[key val] rest IH]; simpl; [reflexivity|].
  intros H. apply andb_true_iff in H as [Hk Hrest].
  rewrite findField_single.
  apply negb_true_iff in Hk. simpl in Hk. rewrite Hk. auto.
Qed.

Lemma object_one_member pre key val post v :
  json.lacks (json.name f) pre = true ->
  json.selects (json.name f) key = true ->
  json.lacks (json.name f) post = true ->
  json.object [f] (pre ++ (key, val) :: post) v = json.store f val v.
Proof.
  intros Hpre Hkey Hpost.
  induction pre as [|[k x] pre IH]; simpl.
  - rewrite findField_single, Hkey.
    destruct (json.store f val v) as [e|v']; [reflexivity|].
    apply object_lacks, Hpost.
  - simpl in Hpre. apply andb_true_iff in Hpre as [Hk Hrest].
    apply negb_true_iff in Hk.
    rewrite findField_single, Hk. auto.
Qed.

End Decoding.

(** Decoding an array into a slice with no cell to reuse stores every
    element into a zero value. *)
Lemma array_fresh {A : Type} (zero : A) st xs :
  (forall x, In x xs -> exists a, st x zero = inr a) ->
  exists out,
    json.array zero st xs [] = inr out /\
    length out = length xs /\
    forall i x, xs !! i = Some x ->
      exists a, st x zero = inr a /\ out !! i = Some a.
Proof.
  induction xs as [|x xs IH]; intros Hall.
  - exists []. repeat split. intros i x Hx. destruct i; discriminate.
  - destruct (Hall x (or_introl eq_refl)) as [a Ha].
    destruct IH as (out & Hout & Hlen & Hnth).
    { intros y Hy. apply Hall. right. exact Hy. }
    exists (a :: out). simpl. rewrite Ha, Hout. repeat split.
    + simpl. congruence.
    + intros [|i] y Hy; simpl in Hy.
      * injection Hy as <-. exists a. split; [exact Ha | reflexivity].
      * apply Hnth, Hy.
Qed.

Lemma collect_app {A : Type} (f : A -> string) items acc :
  fold_left (fun repos r => repos ++ [f r]) items acc = acc ++ map f items.
Proof.
  revert acc. induction items as [|r items IH]; intros acc; simpl.
  - rewrite app_nil_r. reflexivity.
  - rewrite IH, <- app_assoc. reflexivity.
Qed.

Lemma collect_map {A : Type} (f : A -> string) items :
  main.collect f items = map f items.
Proof. unfold main.collect. rewrite collect_app. reflexivity. Qed.

Section Properties.

Variable debug : bool.
Variable httpError : Type.
Variable httpErrorText : httpError -> string.
Variable jsonErrorText : json.error -> string.
Variable NewRequest : string -> string -> httpError + http.Request.
Variable roundTrip : http.Request -> httpError + http.Response.

Local Abbreviation search :=
  (main.search debug httpError httpErrorText jsonErrorText NewRequest
     roundTrip).
Local Abbreviation answered := (main.answered httpError NewRequest roundTrip).
Local Abbreviation suffers := (main.suffers httpError NewRequest roundTrip).

(** The result of a search, step by step. *)
Lemma result_search k term :
  main.result (search k term) =
  match NewRequest http.MethodGet (main.endpoint k) with
  | inl _ => (None, Some main.searchError)
  | inr req =>
      match roundTrip (main.withTerm req term) with
      | inl _ => (None, Some main.searchError)
      | inr res =>
          if (http.StatusCode res <? 200)%Z || (http.StatusCode res >=? 300)%Z
          then (None, Some main.searchError)
          else
            match main.decodeItems k (http.Body res) with
            | inl _ => (None, Some main.searchError)
            | inr items => (Some (map (main.extract k) items), None)
            end
      end
  end.
Proof.
  destruct k; unfold main.search, main.findRepos, main.findUsers,
    main.decodeItems, main.endpoint, main.printDebug, main.Do, main.withTerm;
    simpl;
    (destruct (NewRequest _ _) as [e|req]; [destruct debug; reflexivity|]);
    simpl;
    (destruct (roundTrip _) as [e|res]; [destruct debug; reflexivity|]);
    simpl;
    (destruct (_ || _); [reflexivity|]);
    (destruct (json.Decode _ _ _) as [e|results];
       [destruct debug; reflexivity|]);
    simpl; rewrite collect_map; reflexivity.
Qed.

Lemma result_answered k term res :
  answered k term res ->
  main.result (search k term) =
  if (http.StatusCode res <? 200)%Z || (http.StatusCode res >=? 300)%Z
  then (None, Some main.searchError)
  else
    match main.decodeItems k (http.Body res) with
    | inl _ => (None, Some main.searchError)
    | inr items => (Some (map (main.extract k) items), None)
    end.
Proof.
  intros (req & Hreq & Hres). rewrite result_search, Hreq, Hres. reflexivity.
Qed.

Lemma ok2xx_test res :
  main.ok2xx res <->
  (http.StatusCode res <? 200)%Z || (http.StatusCode res >=? 300)%Z = false.
Proof.
  unfold main.ok2xx. rewrite orb_false_iff, Z.ltb_ge, Z.geb_leb, Z.leb_gt.
  tauto.
Qed.

Lemma lookup_map {A B : Type} (f : A -> B) (l : list A) (i : nat) :
  map f l !! i = option_map f (l !! i).
Proof.
  revert i. induction l as [|a l IH]; intros [|i]; simpl; auto.
Qed.

(** The requests a search sends: the prepared one, when there is one. *)
Lemma sent_search k term :
  main.sent (search k term) =
  match NewRequest http.MethodGet (main.endpoint k) with
  | inl _ => []
  | inr req => [main.withTerm req term]
  end.
Proof.
  destruct k; unfold main.search, main.findRepos, main.findUsers,
    main.endpoint, main.printDebug, main.Do, main.withTerm; simpl;
    (destruct (NewRequest _ _) as [e|req]; [destruct debug; reflexivity|]);
    simpl;
    (destruct (roundTrip _) as [e|res]; [destruct debug; reflexivity|]);
    simpl;
    (destruct (_ || _); [reflexivity|]);
    (destruct (json.Decode _ _ _) as [e|results];
       [destruct debug; reflexivity|]);
    reflexivity.
Qed.

(** The envelope of either kind is a struct with the one field [items]. *)
Lemma decodeItems_lacks k members :
  json.lacks "items" members = true ->
  main.decodeItems k (inr (json.Object members)) = inr [].
Proof.
  intros H. destruct k; unfold main.decodeItems, json.Decode,
    main.storeRepoSearchResult, main.storeUserSearchResult, json.storeStruct,
    main.repoSearchResultFields, main.userSearchResultFields;
    rewrite object_lacks by exact H; reflexivity.
Qed.

(** C1, amended: a 2xx response whose body is a JSON object with no member
    that selects the field [items] is not a failure: the search returns the
    empty sequence and no error. *)
Theorem search_without_items k term res members :
  answered k term res ->
  main.ok2xx res ->
  http.Body res = inr (json.Object members) ->
  json.lacks "items" members = true ->
  main.result (search k term) = (Some [], None).
Proof.
  intros Hans Hok Hbody Hlacks.
  rewrite (result_answered k term res Hans).
  apply ok2xx_test in Hok. rewrite Hok, Hbody.
  rewrite decodeItems_lacks by exact Hlacks. reflexivity.
Qed.

(** C2: for the envelope with the two items [golang/go] and [golang/tools]
    under the key [full_name], [findRepos] returns exactly these two names
    in that order: the key [full_name] selects the field tagged
    [full_Name]. *)
Theorem findRepos_golang term res :
  answered main.Repositories term res ->
  main.ok2xx res ->
  http.Body res = inr sample.golang ->
  main.result
    (main.findRepos debug httpError httpErrorText jsonErrorText NewRequest
       roundTrip term)
  = (Some ["golang/go"; "golang/tools"], None).
Proof.
  intros Hans Hok Hbody.
  change (main.findRepos debug httpError httpErrorText jsonErrorText
            NewRequest roundTrip term)
    with (search main.Repositories term).
  rewrite (result_answered _ term res Hans).
  apply ok2xx_test in Hok. rewrite Hok, Hbody. reflexivity.
Qed.

(** C3, amended: whatever makes a search of either kind fail (request
    construction, transport, a status outside 2xx, decoding), the worker
    returns the same error value, whose text is
    [failed to connect to github], and no result. *)
Theorem search_failure_is_uniform k c term :
  suffers k c term ->
  main.result (search k term)
  = (None, Some (errors.New "failed to connect to github")).
Proof.
  destruct c; simpl.
  - intros [err Hreq]. rewrite result_search, Hreq. reflexivity.
  - intros (req & err & Hreq & Hnet).
    rewrite result_search, Hreq, Hnet. reflexivity.
  - intros (res & Hans & Hbad). rewrite (result_answered _ _ _ Hans).
    destruct (_ || _) eqn:Htest; [reflexivity|].
    apply ok2xx_test in Htest. contradiction.
  - intros (res & err & Hans & Hok & Hdec).
    rewrite (result_answered _ _ _ Hans).
    apply ok2xx_test in Hok. rewrite Hok, Hdec. reflexivity.
Qed.

(** C4: for every envelope that a 2xx body decodes to, the search returns
    a sequence as long as the list of items of the envelope, whose i-th
    string is the extracted field of the i-th item: the order of the items
    is kept, and nothing is dropped or added. *)
Theorem search_keeps_order k term res items :
  answered k term res ->
  main.ok2xx res ->
  main.decodeItems k (http.Body res) = inr items ->
  exists out,
    main.result (search k term) = (Some out, None) /\
    length out = length items /\
    forall i r, items !! i = Some r -> out !! i = Some (main.extract k r).
Proof.
  intros Hans Hok Hdec. rewrite (result_answered _ _ _ Hans).
  apply ok2xx_test in Hok. rewrite Hok, Hdec.
  exists (map (main.extract k) items).
  split; [reflexivity|].
  split; [apply length_map|].
  intros i r Hr. rewrite lookup_map, Hr. reflexivity.
Qed.

(** C5: a response whose status is outside [200,300) makes the search fail
    with the search error, whatever its body is. *)
Theorem search_bad_status k term res :
  answered k term res ->
  (http.StatusCode res < 200 \/ 300 <= http.StatusCode res)%Z ->
  main.result (search k term) = (None, Some main.searchError).
Proof.
  intros Hans Hbad. rewrite (result_answered _ _ _ Hans).
  destruct (_ || _) eqn:Htest; [reflexivity|].
  apply ok2xx_test in Htest. unfold main.ok2xx in Htest. lia.
Qed.

(** C6: a 2xx response whose body decodes to an envelope with no item gives
    the empty sequence and no error. *)
Theorem search_no_items k term res :
  answered k term res ->
  main.ok2xx res ->
  main.decodeItems k (http.Body res) = inr [] ->
  main.result (search k term) = (Some [], None).
Proof.
  intros Hans Hok Hdec. rewrite (result_answered _ _ _ Hans).
  apply ok2xx_test in Hok. rewrite Hok, Hdec. reflexivity.
Qed.

(** C9: a search that returns an error returns the nil slice with it. *)
Theorem search_error_without_result k term err :
  snd (main.result (search k term)) = Some err ->
  fst (main.result (search k term)) = None.
Proof.
  rewrite result_search.
  destruct (NewRequest _ _) as [e|req]; [reflexivity|].
  destruct (roundTrip _) as [e|res]; [reflexivity|].
  destruct (_ || _); [reflexivity|].
  destruct (main.decodeItems _ _) as [e|items]; [reflexivity|].
  discriminate.
Qed.

(** An envelope with one member for [items], an array that is not empty,
    decodes to what the array decodes to in a slice with no cell yet. *)
Lemma decodeItems_envelope k pre key xs post :
  json.lacks "items" pre = true ->
  json.selects "items" key = true ->
  json.lacks "items" post = true ->
  xs <> [] ->
  main.decodeItems k (inr (json.Object (pre ++ (key, json.Array xs) :: post)))
  = json.array (main.zeroItem k) (main.storeItem k) xs [].
Proof.
  intros Hpre Hkey Hpost Hxs.
  destruct xs as [|x xs]; [congruence|].
  destruct k; unfold main.decodeItems, json.Decode,
    main.storeRepoSearchResult, main.storeUserSearchResult, json.storeStruct,
    main.repoSearchResultFields, main.userSearchResultFields;
    rewrite object_one_member by assumption;
    cbn [json.store json.storeSlice main.repoItems main.userItems
         main.zeroRepoSearchResult main.zeroUserSearchResult json.nil
         json.elems json.spare app main.zeroItem main.storeItem];
    destruct (json.array _ _ _ _) as [e|decoded]; reflexivity.
Qed.

(** An item object with no member for the extracted field leaves the cell
    it is stored into as it was. *)
Lemma storeItem_lacks k fields :
  json.lacks (main.fieldName k) fields = true ->
  main.storeItem k (json.Object fields) (main.zeroItem k)
  = inr (main.zeroItem k).
Proof.
  intros H. destruct k; unfold main.storeItem, main.storeRepo, main.storeUser,
    json.storeStruct, main.repoFields, main.userFields;
    apply object_lacks; exact H.
Qed.

(** C7, amended: in an envelope with one member for [items], an array, an
    item object with no member for the extracted field does not make
    decoding fail and gives the empty string at its position of the
    result. *)
Theorem search_item_without_field k term res pre key xs post i fields :
  answered k term res ->
  main.ok2xx res ->
  http.Body res = inr (json.Object (pre ++ (key, json.Array xs) :: post)) ->
  json.lacks "items" pre = true ->
  json.selects "items" key = true ->
  json.lacks "items" post = true ->
  xs !! i = Some (json.Object fields) ->
  json.lacks (main.fieldName k) fields = true ->
  (forall j x, j <> i -> xs !! j = Some x ->
     exists a, main.storeItem k x (main.zeroItem k) = inr a) ->
  exists out,
    main.result (search k term) = (Some out, None) /\
    length out = length xs /\
    out !! i = Some "".
Proof.
  intros Hans Hok Hbody Hpre Hkey Hpost Hi Hlacks Hothers.
  rewrite (result_answered _ _ _ Hans).
  apply ok2xx_test in Hok. rewrite Hok, Hbody.
  rewrite decodeItems_envelope; try assumption.
  2:{ intros ->. discriminate. }
  destruct (array_fresh (main.zeroItem k) (main.storeItem k) xs)
    as (items & Hitems & Hlen & Hnth).
  { intros x Hx. apply list_elem_of_In, list_elem_of_lookup in Hx as [j Hj].
    destruct (decide (j = i)) as [->|Hne].
    - rewrite Hi in Hj. injection Hj as <-.
      exists (main.zeroItem k). apply storeItem_lacks, Hlacks.
    - eapply Hothers; eassumption. }
  rewrite Hitems. eexists. split; [reflexivity|].
  split; [rewrite length_map; exact Hlen|].
  destruct (Hnth _ _ Hi) as (a & Ha & Hout).
  rewrite storeItem_lacks in Ha by exact Hlacks. injection Ha as <-.
  rewrite lookup_map, Hout. destruct k; reflexivity.
Qed.

(** C8: the request a search sends carries the term as the value of the
    one parameter [q], escaped once: its query string is [q=] followed by
    the escaped term, and parsing the query string gives back the term. *)
Theorem search_query_escaped_once k term req :
  NewRequest http.MethodGet (main.endpoint k) = inr req ->
  url.RawQuery (http.URL req) = "" ->
  exists sentReq,
    main.sent (search k term) = [sentReq] /\
    url.RawQuery (http.URL sentReq) = "q=" +:+ url.QueryEscape term /\
    url.ParseQuery (url.RawQuery (http.URL sentReq))
    = ({["q" := [term]]}, None).
Proof.
  intros Hreq Hraw. exists (main.withTerm req term).
  rewrite sent_search, Hreq. split; [reflexivity|].
  assert (Hq : url.RawQuery (http.URL (main.withTerm req term))
               = "q=" +:+ url.QueryEscape term).
  { unfold main.withTerm. simpl.
    rewrite (Query_no_query _ Hraw). apply Encode_q. }
  split; [exact Hq|]. rewrite Hq. apply ParseQuery_q.
Qed.

(** C10: without a search term, [search-users] returns the error of
    [search-repos], whose text names the repos sub-command. *)
Theorem executeSearchUsers_without_term args :
  flag.Parse args = flag.Parsed [] ->
  main.result
    (main.executeSearchUsers debug httpError httpErrorText jsonErrorText
       NewRequest roundTrip args)
  = main.Returns (Some (errors.New
      "provide a search term for searching repos: search-repos <search_term>"))
  /\
  main.result
    (main.executeSearchRepos debug httpError httpErrorText jsonErrorText
       NewRequest roundTrip args)
  = main.result
      (main.executeSearchUsers debug httpError httpErrorText jsonErrorText
         NewRequest roundTrip args)
  /\
  main.result
    (main.executeCommand debug httpError httpErrorText jsonErrorText
       NewRequest roundTrip "search-users" args)
  = main.result
      (main.executeSearchUsers debug httpError httpErrorText jsonErrorText
         NewRequest roundTrip args).
Proof.
  intros Hparse.
  unfold main.executeCommand, main.executeSearchUsers,
    main.executeSearchRepos, main.printDebug.
  rewrite Hparse. destruct debug; repeat split; reflexivity.
Qed.
End Properties.

(** ** The claims at concrete inputs *)

(** A response of the sample network is an answer to the search. *)
Lemma sample_answered k term status body :
  main.answered string sample.NewRequest (sample.answer status body) k term
    {| http.StatusCode := status; http.Body := body |}.
Proof. eexists. split; reflexivity. Qed.

(** C1, as stated, fails: with status 200 and the body
    [{"total_count":0}], which has no [items], both workers return the empty
    sequence and no error. *)
Lemma search_without_items_counterexample :
  main.result
    (sample.findRepos false
       (sample.answer 200
          (inr (json.Object [("total_count", json.Number "0")])))
       "golang")
  = (Some [], None) /\
  main.result
    (sample.findUsers false
       (sample.answer 200
          (inr (json.Object [("total_count", json.Number "0")])))
       "golang")
  = (Some [], None).
Proof. split; vm_compute; reflexivity. Qed.

(** C1, amended, on the body [{"total_count":0}]. *)
Lemma search_without_items_witness :
  let res := {| http.StatusCode := 200;
                http.Body :=
                  inr (json.Object [("total_count", json.Number "0")]) |} in
  main.ok2xx res /\
  json.lacks "items" [("total_count", json.Number "0")] = true /\
  main.result
    (sample.search false (sample.answer 200 (http.Body res))
       main.Users "golang")
  = (Some [], None).
Proof.
  intros res.
  assert (Hok : main.ok2xx res) by (unfold main.ok2xx; simpl; lia).
  split; [exact Hok|]. split; [reflexivity|].
  apply (search_without_items false string id sample.jsonErrorText
           sample.NewRequest (sample.answer 200 (http.Body res))
           main.Users "golang" res [("total_count", json.Number "0")]).
  - apply sample_answered.
  - exact Hok.
  - reflexivity.
  - reflexivity.
Defined.

(** C2 on the sample network. *)
Lemma findRepos_golang_witness :
  let res := {| http.StatusCode := 200; http.Body := inr sample.golang |} in
  main.ok2xx res /\
  main.result (sample.findRepos true (sample.answer 200 (inr sample.golang))
                 "golang")
  = (Some ["golang/go"; "golang/tools"], None).
Proof.
  intros res.
  assert (Hok : main.ok2xx res) by (unfold main.ok2xx; simpl; lia).
  split; [exact Hok|].
  apply (findRepos_golang true string id sample.jsonErrorText
           sample.NewRequest (sample.answer 200 (inr sample.golang))
           "golang" res).
  - apply (sample_answered main.Repositories).
  - exact Hok.
  - reflexivity.
Defined.

(** C3, as stated, fails: the error a 404 produces does not read
    [could not complete search]. *)
Lemma search_failure_text_counterexample :
  snd (main.result
         (sample.findRepos false (sample.answer 404 (inr sample.golang))
            "golang"))
  = Some (errors.New "failed to connect to github") /\
  errors.Error (errors.New "failed to connect to github")
  <> "could not complete search".
Proof. split; [vm_compute; reflexivity | discriminate]. Qed.

(** C3, amended, for a body that is not JSON. *)
Lemma search_failure_is_uniform_witness :
  let net := sample.answer 200 (inl (json.ScanError "unexpected EOF")) in
  main.suffers string sample.NewRequest net main.Users main.DecodeFailure
    "torvalds" /\
  main.result (sample.search true net main.Users "torvalds")
  = (None, Some (errors.New "failed to connect to github")).
Proof.
  intros net.
  assert (Hs : main.suffers string sample.NewRequest net main.Users
                 main.DecodeFailure "torvalds").
  { simpl. eexists. eexists. split; [apply sample_answered|].
    split; [unfold main.ok2xx; simpl; lia | reflexivity]. }
  split; [exact Hs|].
  apply (search_failure_is_uniform true string id sample.jsonErrorText
           sample.NewRequest net main.Users main.DecodeFailure "torvalds").
  exact Hs.
Defined.

(** C4 on the sample network. *)
Lemma search_keeps_order_witness :
  let net := sample.answer 200 (inr sample.golang) in
  let items := [{| main.FullName := "golang/go" |};
                {| main.FullName := "golang/tools" |}] in
  main.decodeItems main.Repositories (inr sample.golang) = inr items /\
  exists out,
    main.result (sample.search false net main.Repositories "golang")
    = (Some out, None) /\
    length out = length items /\
    forall i r, items !! i = Some r ->
      out !! i = Some (main.extract main.Repositories r).
Proof.
  intros net items. split; [reflexivity|].
  apply (search_keeps_order false string id sample.jsonErrorText
           sample.NewRequest net main.Repositories "golang"
           {| http.StatusCode := 200; http.Body := inr sample.golang |}
           items).
  - apply sample_answered.
  - unfold main.ok2xx; simpl; lia.
  - reflexivity.
Defined.

(** C5 for the status 404 with a well-formed body. *)
Lemma search_bad_status_witness :
  let res := {| http.StatusCode := 404; http.Body := inr sample.golang |} in
  (http.StatusCode res < 200 \/ 300 <= http.StatusCode res)%Z /\
  main.result
    (sample.search false (sample.answer 404 (inr sample.golang))
       main.Repositories "golang")
  = (None, Some main.searchError).
Proof.
  intros res.
  assert (Hbad : (http.StatusCode res < 200 \/ 300 <= http.StatusCode res)%Z)
    by (right; simpl; lia).
  split; [exact Hbad|].
  apply (search_bad_status false string id sample.jsonErrorText
           sample.NewRequest (sample.answer 404 (inr sample.golang))
           main.Repositories "golang" res).
  - apply sample_answered.
  - exact Hbad.
Defined.

(** C6 on the body [{"items":[]}]. *)
Lemma search_no_items_witness :
  let body : json.error + json.Value :=
    inr (json.Object [("items", json.Array [])]) in
  main.decodeItems main.Users body = inr [] /\
  main.result (sample.search false (sample.answer 200 body) main.Users "x")
  = (Some [], None).
Proof.
  intros body. split; [reflexivity|].
  apply (search_no_items false string id sample.jsonErrorText
           sample.NewRequest (sample.answer 200 body) main.Users "x"
           {| http.StatusCode := 200; http.Body := body |}).
  - apply sample_answered.
  - unfold main.ok2xx; simpl; lia.
  - reflexivity.
Defined.

(** C7, as stated, fails: in the body
    [{"items":[{"full_name":"a"}],"items":[{}]}] the item of the second
    list has no member for the field, yet the result holds [a] at its
    position: the decoder stores the second list into the cells the first
    one filled. *)
Lemma search_item_without_field_counterexample :
  json.lacks (main.fieldName main.Repositories) [] = true /\
  main.result
    (sample.findRepos false
       (sample.answer 200
          (inr (json.Object
             [("items",
               json.Array [json.Object [("full_name", json.Str "a")]]);
              ("items", json.Array [json.Object []])])))
       "x")
  = (Some ["a"], None).
Proof. split; [reflexivity | vm_compute; reflexivity]. Qed.

(** C7, amended, on the body [{"items":[{}]}]: the result is one empty
    string. *)
Lemma search_item_without_field_witness :
  let body : json.error + json.Value :=
    inr (json.Object [("items", json.Array [json.Object []])]) in
  main.result
    (sample.search false (sample.answer 200 body) main.Repositories "x")
  = (Some [""], None) /\
  exists out,
    main.result
      (sample.search false (sample.answer 200 body) main.Repositories "x")
    = (Some out, None) /\
    length out = 1 /\
    out !! 0 = Some "".
Proof.
  intros body. split; [vm_compute; reflexivity|].
  apply (search_item_without_field false string id sample.jsonErrorText
           sample.NewRequest (sample.answer 200 body) main.Repositories "x"
           {| http.StatusCode := 200; http.Body := body |}
           [] "items" [json.Object []] [] 0 []).
  - apply sample_answered.
  - unfold main.ok2xx; simpl; lia.
  - reflexivity.
  - reflexivity.
  - reflexivity.
  - reflexivity.
  - reflexivity.
  - reflexivity.
  - intros [|j] x Hj Hx; [congruence | discriminate].
Defined.

(** C8 for a term with a space and an ampersand. *)
Lemma search_query_escaped_once_witness :
  let req := {| http.Method := "GET";
                http.URL := {| url.Scheme := "https";
                               url.Host := "api.github.com";
                               url.Path := "/search/repositories";
                               url.RawQuery := "" |} |} in
  sample.NewRequest http.MethodGet (main.endpoint main.Repositories)
  = inr req /\
  exists sentReq,
    main.sent (sample.search false sample.down main.Repositories "go lang&co")
    = [sentReq] /\
    url.RawQuery (http.URL sentReq) = "q=" +:+ url.QueryEscape "go lang&co" /\
    url.ParseQuery (url.RawQuery (http.URL sentReq))
    = ({["q" := ["go lang&co"]]}, None).
Proof.
  intros req. split; [reflexivity|].
  apply (search_query_escaped_once false string id sample.jsonErrorText
           sample.NewRequest sample.down main.Repositories "go lang&co" req).
  - reflexivity.
  - reflexivity.
Defined.

(** C9 when the network is down. *)
Lemma search_error_without_result_witness :
  snd (main.result (sample.search false sample.down main.Users "x"))
  = Some main.searchError /\
  fst (main.result (sample.search false sample.down main.Users "x")) = None.
Proof.
  assert (He : snd (main.result
                      (sample.search false sample.down main.Users "x"))
               = Some main.searchError) by (vm_compute; reflexivity).
  split; [exact He|].
  apply (search_error_without_result false string id sample.jsonErrorText
           sample.NewRequest sample.down main.Users "x" main.searchError).
  exact He.
Defined.

(** C10 for no argument at all. *)
Lemma executeSearchUsers_without_term_witness :
  flag.Parse [] = flag.Parsed [] /\
  main.result
    (main.executeSearchUsers true string id sample.jsonErrorText
       sample.NewRequest sample.down [])
  = main.Returns (Some (errors.New
      "provide a search term for searching repos: search-repos <search_term>")).
Proof.
  split; [reflexivity|].
  apply (executeSearchUsers_without_term true string id sample.jsonErrorText
           sample.NewRequest sample.down []).
  reflexivity.
Defined.

(** * Further properties of the program *)

(** ** What [flag] does with the arguments of a sub-command *)

Lemma Parse_flagLike s rest :
  flag.flagLike s = true ->
  s <> "--" ->
  flag.Parse (s :: rest) = flag.Exit 0 \/ flag.Parse (s :: rest) = flag.Exit 2.
Proof.
  destruct s as [|c0 [|c1 s2]]; try discriminate.
  simpl. intros Hc0 Hne. rewrite Hc0. simpl.
  destruct (Ascii.eqb c1 "-") eqn:Hc1; simpl.
  - destruct (String.eqb s2 "") eqn:Hs2.
    + apply Ascii.eqb_eq in Hc0, Hc1. apply String.eqb_eq in Hs2.
      subst. contradiction.
    + destruct s2 as [|n0 s3]; [auto|].
      destruct (Ascii.eqb n0 "-" || Ascii.eqb n0 "="); [auto|].
      destruct (_ || _); auto.
  - destruct (Ascii.eqb c1 "-" || Ascii.eqb c1 "="); [auto|].
    destruct (_ || _); auto.
Qed.

Lemma Parse_not_flagLike s rest :
  flag.flagLike s = false -> flag.Parse (s :: rest) = flag.Parsed (s :: rest).
Proof.
  destruct s as [|c0 [|c1 s2]]; try reflexivity.
  simpl. intros ->. reflexivity.
Qed.

(** X9: [flagSet.Parse] hands the arguments on untouched when the first
    one is not flag-like, hands on what follows a leading [--], and returns
    in no other case: it never drops or reorders a positional argument. *)
Theorem Parse_keeps_positional_arguments args rest :
  flag.Parse args = flag.Parsed rest <->
  (rest = args /\ (args = [] \/ exists s more,
                     args = s :: more /\ flag.flagLike s = false))
  \/ args = "--" :: rest.
Proof.
  split.
  - destruct args as [|s more]; [intros [= <-]; left; auto|].
    destruct (flag.flagLike s) eqn:Hlike.
    + destruct (String.eqb s "--") eqn:Hdd.
      * apply String.eqb_eq in Hdd. subst s. simpl.
        intros [= <-]. right. reflexivity.
      * apply String.eqb_neq in Hdd.
        destruct (Parse_flagLike s more Hlike Hdd) as [-> | ->]; discriminate.
    + rewrite Parse_not_flagLike by exact Hlike. intros [= <-].
      left. split; [reflexivity|]. right. eauto.
  - intros [[-> [-> | (s & more & -> & Hlike)]] | ->].
    + reflexivity.
    + apply Parse_not_flagLike, Hlike.
    + reflexivity.
Qed.

Section MoreProperties.

Variable debug : bool.
Variable httpError : Type.
Variable httpErrorText : httpError -> string.
Variable jsonErrorText : json.error -> string.
Variable NewRequest : string -> string -> httpError + http.Request.
Variable roundTrip : http.Request -> httpError + http.Response.

Local Abbreviation search :=
  (main.search debug httpError httpErrorText jsonErrorText NewRequest
     roundTrip).
Local Abbreviation answered := (main.answered httpError NewRequest roundTrip).
Local Abbreviation suffers := (main.suffers httpError NewRequest roundTrip).
Local Abbreviation executeCommand :=
  (main.executeCommand debug httpError httpErrorText jsonErrorText NewRequest
     roundTrip).

(** The line [printDebug] writes, if any. *)
Local Abbreviation debugLine msg :=
  (if debug then [main.Stdout ("[DEBUG]: " +:+ msg +:+ main.newline)]
   else []).

(** The events of a search, step by step. *)
Lemma trace_search k term :
  main.trace (search k term) =
  match NewRequest http.MethodGet (main.endpoint k) with
  | inl err => debugLine (httpErrorText err)
  | inr req =>
      main.Send (main.withTerm req term) ::
      match roundTrip (main.withTerm req term) with
      | inl err => debugLine (httpErrorText err)
      | inr res =>
          if (http.StatusCode res <? 200)%Z || (http.StatusCode res >=? 300)%Z
          then []
          else
            match main.decodeItems k (http.Body res) with
            | inl err => debugLine (jsonErrorText err)
            | inr _ => []
            end
      end
  end.
Proof.
  destruct k; unfold main.search, main.findRepos, main.findUsers,
    main.decodeItems, main.endpoint, main.printDebug, main.Do, main.withTerm;
    simpl;
    (destruct (NewRequest _ _) as [e|req]; [destruct debug; reflexivity|]);
    simpl;
    (destruct (roundTrip _) as [e|res]; [destruct debug; reflexivity|]);
    simpl;
    (destruct (_ || _); [reflexivity|]);
    (destruct (json.Decode _ _ _) as [e|results];
       [destruct debug; reflexivity|]);
    reflexivity.
Qed.

(** X1: a command other than [search-repos] and [search-users] is refused
    with an error that quotes it; its arguments are not parsed and nothing
    is sent. *)
Theorem executeCommand_unknown command args :
  command <> "search-repos" ->
  command <> "search-users" ->
  main.result (executeCommand command args)
  = main.Returns (Some (errors.New
      ("invalid command: '" +:+ command +:+ "'")))
  /\ main.sent (executeCommand command args) = [].
Proof.
  intros Hr Hu. apply String.eqb_neq in Hr, Hu.
  unfold main.executeCommand, main.printDebug. rewrite Hr, Hu.
  destruct debug; split; reflexivity.
Qed.

(** X2: a search sends one request at most, and that request is the one
    [http.NewRequest] made with nothing but its query string changed. *)
Theorem search_sends_once k term sentReq :
  In sentReq (main.sent (search k term)) ->
  main.sent (search k term) = [sentReq] /\
  exists req,
    NewRequest http.MethodGet (main.endpoint k) = inr req /\
    http.Method sentReq = http.Method req /\
    url.Scheme (http.URL sentReq) = url.Scheme (http.URL req) /\
    url.Host (http.URL sentReq) = url.Host (http.URL req) /\
    url.Path (http.URL sentReq) = url.Path (http.URL req).
Proof.
  rewrite sent_search.
  destruct (NewRequest _ _) as [e|req]; [intros []|].
  intros [<- | []]. split; [reflexivity|].
  exists req. repeat split.
Qed.

(** X3: a status outside 2xx is the one failure that leaves no trace: with
    the debug flag on or off, the only event of the search is the request. *)
Theorem search_bad_status_is_silent k term res :
  answered k term res ->
  (http.StatusCode res < 200 \/ 300 <= http.StatusCode res)%Z ->
  exists req, main.trace (search k term) = [main.Send req].
Proof.
  intros (req & Hreq & Hnet) Hbad. exists (main.withTerm req term).
  rewrite trace_search, Hreq, Hnet.
  destruct (_ || _) eqn:Htest; [reflexivity|].
  apply ok2xx_test in Htest. unfold main.ok2xx in Htest. lia.
Qed.

Lemma search_prints_nothing k term text :
  debug = false ->
  ~ In (main.Stdout text) (main.trace (search k term)).
Proof.
  intros Hd. rewrite trace_search, Hd.
  destruct (NewRequest _ _) as [e|req]; [intros []|].
  destruct (roundTrip _) as [e|res]; [intros [H|[]]; discriminate|].
  destruct (_ || _); [intros [H|[]]; discriminate|].
  destruct (main.decodeItems _ _); intros [H|[]]; discriminate.
Qed.

(** X4: with the debug flag off a search writes nothing to standard
    output, whatever happens to it. *)
Theorem search_quiet_without_debug k term text :
  debug = false ->
  ~ In (main.Stdout text) (main.trace (search k term)).
Proof. apply search_prints_nothing. Qed.

(** X5: with the debug flag on, a failure of request construction, of the
    transport or of decoding makes the search print the text of that very
    error on one debug line, as its last event and its only output. *)
Theorem search_failure_is_traced k term :
  debug = true ->
  (forall err,
     NewRequest http.MethodGet (main.endpoint k) = inl err ->
     main.trace (search k term)
     = [main.Stdout ("[DEBUG]: " +:+ httpErrorText err +:+ main.newline)])
  /\
  (forall req err,
     NewRequest http.MethodGet (main.endpoint k) = inr req ->
     roundTrip (main.withTerm req term) = inl err ->
     main.trace (search k term)
     = [main.Send (main.withTerm req term);
        main.Stdout ("[DEBUG]: " +:+ httpErrorText err +:+ main.newline)])
  /\
  (forall req res err,
     NewRequest http.MethodGet (main.endpoint k) = inr req ->
     roundTrip (main.withTerm req term) = inr res ->
     main.ok2xx res ->
     main.decodeItems k (http.Body res) = inl err ->
     main.trace (search k term)
     = [main.Send (main.withTerm req term);
        main.Stdout ("[DEBUG]: " +:+ jsonErrorText err +:+ main.newline)]).
Proof.
  intros Hd. repeat split.
  - intros err Hreq. rewrite trace_search, Hreq, Hd. reflexivity.
  - intros req err Hreq Hnet. rewrite trace_search, Hreq, Hnet, Hd.
    reflexivity.
  - intros req res err Hreq Hnet Hok Hdec.
    rewrite trace_search, Hreq, Hnet. apply ok2xx_test in Hok.
    rewrite Hok, Hdec, Hd. reflexivity.
Qed.

(** The events and the result of a sub-command that has a search term.  The
    debug lines of both sub-commands carry the label of [search-repos]. *)
Lemma executeCommand_search k args term more :
  flag.Parse args = flag.Parsed (term :: more) ->
  main.result (executeCommand (main.commandOf k) args)
  = main.Returns (snd (main.result (search k term)))
  /\
  main.trace (executeCommand (main.commandOf k) args)
  = debugLine ("Command: " +:+ main.commandOf k)
    ++ debugLine ("Args: " +:+ main.formatSlice args)
    ++ debugLine ("[search-repos] Args: " +:+ main.formatSlice (term :: more))
    ++ debugLine ("[search-repos] Search Term: " +:+ term)
    ++ main.trace (search k term)
    ++ match main.result (search k term) with
       | (_, Some _) => []
       | (names, None) =>
           [main.Stdout (strings.Join (default [] names) ", "
                           +:+ main.newline)]
       end.
Proof.
  intros Hparse.
  destruct k; unfold main.executeCommand, main.commandOf,
    main.executeSearchRepos, main.executeSearchUsers, main.printDebug;
    simpl; rewrite Hparse;
    unfold main.search;
    match goal with
    | |- context [main.findRepos ?a ?b ?c ?d ?e ?f ?g] =>
        destruct (main.findRepos a b c d e f g) as [t [names [err|]]]
    | |- context [main.findUsers ?a ?b ?c ?d ?e ?f ?g] =>
        destruct (main.findUsers a b c d e f g) as [t [names [err|]]]
    end;
    destruct debug; simpl; rewrite ?app_nil_r; split; reflexivity.
Qed.

(** X6: a sub-command searches for its first positional argument only,
    and returns the worker's error as it is. *)
Theorem executeCommand_first_argument k args term more :
  flag.Parse args = flag.Parsed (term :: more) ->
  main.result (executeCommand (main.commandOf k) args)
  = main.Returns (snd (main.result (search k term)))
  /\ main.sent (executeCommand (main.commandOf k) args)
     = main.sent (search k term).
Proof.
  intros Hparse.
  destruct (executeCommand_search k args term more Hparse) as [Hres Htrace].
  split; [exact Hres|].
  unfold main.sent at 1. rewrite Htrace.
  repeat rewrite omap_app.
  assert (Hd : forall msg,
            omap (fun e => match e with
                           | main.Send req => Some req
                           | main.Stdout _ => None
                           end) (debugLine msg) = [])
    by (intros msg; destruct debug; reflexivity).
  rewrite !Hd. simpl.
  destruct (main.result (search k term)) as [names [err|]]; simpl;
    rewrite app_nil_r; reflexivity.
Qed.

(** X7: when the search succeeds, the last thing a sub-command writes is
    the names joined by a comma and a space, on a line of its own, and it
    returns no error; an empty result is an empty line. *)
Theorem executeCommand_prints_names k args term more names :
  flag.Parse args = flag.Parsed (term :: more) ->
  main.result (search k term) = (Some names, None) ->
  main.result (executeCommand (main.commandOf k) args) = main.Returns None
  /\ last (main.trace (executeCommand (main.commandOf k) args))
     = Some (main.Stdout (strings.Join names ", " +:+ main.newline)).
Proof.
  intros Hparse Hok.
  destruct (executeCommand_search k args term more Hparse) as [Hres Htrace].
  rewrite Hres, Htrace, Hok. split; [reflexivity|].
  rewrite !app_assoc. apply last_snoc.
Qed.

(** X8: when the search fails and the debug flag is off, a sub-command
    writes nothing: the error is left to its caller. *)
Theorem executeCommand_failure_is_quiet k args term more err text :
  debug = false ->
  flag.Parse args = flag.Parsed (term :: more) ->
  snd (main.result (search k term)) = Some err ->
  ~ In (main.Stdout text)
       (main.trace (executeCommand (main.commandOf k) args)).
Proof.
  intros Hd Hparse Herr.
  destruct (executeCommand_search k args term more Hparse) as [_ Htrace].
  rewrite Htrace. destruct (main.result (search k term)) as [names e].
  simpl in Herr. subst e.
  assert (Hq : forall msg, debugLine msg = [])
    by (intros msg; rewrite Hd; reflexivity).
  rewrite !Hq. simpl. rewrite app_nil_r.
  apply search_prints_nothing. exact Hd.
Qed.

Lemma executeCommand_exit k args status :
  flag.Parse args = flag.Exit status ->
  main.result (executeCommand (main.commandOf k) args) = main.Exits status
  /\ main.sent (executeCommand (main.commandOf k) args) = [].
Proof.
  intros Hp.
  destruct k; unfold main.executeCommand, main.commandOf,
    main.executeSearchRepos, main.executeSearchUsers, main.printDebug;
    simpl; rewrite Hp; destruct debug; split; reflexivity.
Qed.

(** X10: a first argument that is flag-like, other than [--], ends the
    process with status 0 or 2 before anything is sent: the sub-commands
    define no flag. *)
Theorem executeCommand_flag_exits k s rest :
  flag.flagLike s = true ->
  s <> "--" ->
  exists status,
    (status = 0 \/ status = 2)%Z /\
    main.result (executeCommand (main.commandOf k) (s :: rest))
    = main.Exits status /\
    main.sent (executeCommand (main.commandOf k) (s :: rest)) = [].
Proof.
  intros Hlike Hne.
  destruct (Parse_flagLike s rest Hlike Hne) as [Hp | Hp];
    [exists 0%Z | exists 2%Z];
    (split; [auto|]); apply executeCommand_exit, Hp.
Qed.

(** X25: a search returns names and no error, or no names and the search
    error: never both, never neither. *)
Theorem search_result_shape k term :
  (exists names, main.result (search k term) = (Some names, None))
  \/ main.result (search k term) = (None, Some main.searchError).
Proof.
  rewrite result_search.
  destruct (NewRequest _ _) as [e|req]; [auto|].
  destruct (roundTrip _) as [e|res]; [auto|].
  destruct (_ || _); [auto|].
  destruct (main.decodeItems _ _) as [e|items]; [auto|].
  left. eauto.
Qed.

(** X26: with the debug flag on, [search-users] reports its search term
    under the label of [search-repos]. *)
Theorem executeSearchUsers_debug_label args term more :
  debug = true ->
  flag.Parse args = flag.Parsed (term :: more) ->
  In (main.Stdout ("[DEBUG]: " +:+ ("[search-repos] Search Term: " +:+ term)
                     +:+ main.newline))
     (main.trace (executeCommand "search-users" args)).
Proof.
  intros Hd Hparse.
  destruct (executeCommand_search main.Users args term more Hparse)
    as [_ Htrace].
  simpl main.commandOf in Htrace. rewrite Htrace.
  assert (Hline : forall msg,
            debugLine msg
            = [main.Stdout ("[DEBUG]: " +:+ msg +:+ main.newline)])
    by (intros msg; rewrite Hd; reflexivity).
  rewrite !Hline. simpl. right. right. right. left. reflexivity.
Qed.

(** ** What decoding accepts and refuses *)

(** The member for [items] decides what the envelope decodes to. *)
Lemma decodeItems_member k pre key v post :
  json.lacks "items" pre = true ->
  json.selects "items" key = true ->
  json.lacks "items" post = true ->
  main.decodeItems k (inr (json.Object (pre ++ (key, v) :: post)))
  = match v with
    | json.Null => inr []
    | json.Array xs => json.array (main.zeroItem k) (main.storeItem k) xs []
    | _ => main.decodeItems k (inr (json.Object [("items", v)]))
    end.
Proof.
  intros Hpre Hkey Hpost.
  destruct k; unfold main.decodeItems, json.Decode,
    main.storeRepoSearchResult, main.storeUserSearchResult, json.storeStruct,
    main.repoSearchResultFields, main.userSearchResultFields;
    rewrite object_one_member by assumption;
    destruct v as [| | | |[|x xs]|]; try reflexivity;
    cbn [json.store json.storeSlice main.repoItems main.userItems
         main.zeroRepoSearchResult main.zeroUserSearchResult json.nil
         json.elems json.spare app main.zeroItem main.storeItem];
    destruct (json.array _ _ _ _) as [e|decoded]; reflexivity.
Qed.

Lemma storeItem_carries k x n :
  main.carries k x n ->
  exists it, main.storeItem k x (main.zeroItem k) = inr it /\
             main.extract k it = n.
Proof.
  intros (pre & key & post & -> & Hpre & Hkey & Hpost).
  destruct k; unfold main.storeItem, main.storeRepo, main.storeUser,
    json.storeStruct, main.repoFields, main.userFields;
    rewrite object_one_member by assumption; simpl;
    eexists; split; reflexivity.
Qed.

Lemma storeItem_blank k x :
  main.blank k x ->
  main.storeItem k x (main.zeroItem k) = inr (main.zeroItem k).
Proof.
  intros [-> | (members & -> & Hnull)]; [destruct k; reflexivity|].
  destruct k; unfold main.storeItem, main.storeRepo, main.storeUser,
    json.storeStruct, main.repoFields, main.userFields;
    (induction members as [|[key v] rest IH]; [reflexivity|]);
    cbn [json.object]; rewrite findField_single;
    cbn [json.name];
    (destruct (json.selects _ key) eqn:Hsel;
     [ rewrite (Hnull key v (or_introl eq_refl) Hsel); simpl
     | ]);
    apply IH; intros key' v' Hin; apply Hnull; right; exact Hin.
Qed.

Lemma array_map {A : Type} (zero : A) st xs (f : A -> string) ns :
  Forall2 (fun x n => exists a, st x zero = inr a /\ f a = n) xs ns ->
  exists items,
    json.array zero st xs [] = inr items /\ map f items = ns.
Proof.
  induction 1 as [|x n xs ns (a & Ha & Hf) _ (items & Hitems & Hmap)].
  - exists []. split; reflexivity.
  - exists (a :: items). simpl. rewrite Ha, Hitems.
    split; [reflexivity|]. simpl. congruence.
Qed.

Lemma array_refuses {A : Type} (zero : A) st xs x e :
  In x xs -> st x zero = inl e ->
  exists e', json.array zero st xs [] = inl e'.
Proof.
  induction xs as [|y xs IH]; [intros []|].
  intros [-> | Hin] Hbad; simpl.
  - rewrite Hbad. eauto.
  - destruct (st y zero) as [e1|a]; [eauto|].
    destruct (IH Hin Hbad) as [e' ->]. eauto.
Qed.

(** X11: for every list of names, an envelope whose items carry these
    names under a key that selects the extracted field, whatever other
    members the envelope and the items have, gives back exactly the names. *)
Theorem search_returns_the_names k term res pre key xs post names :
  answered k term res ->
  main.ok2xx res ->
  http.Body res = inr (json.Object (pre ++ (key, json.Array xs) :: post)) ->
  json.lacks "items" pre = true ->
  json.selects "items" key = true ->
  json.lacks "items" post = true ->
  Forall2 (main.carries k) xs names ->
  main.result (search k term) = (Some names, None).
Proof.
  intros Hans Hok Hbody Hpre Hkey Hpost Hall.
  rewrite (result_answered _ _ _ _ _ _ _ _ _ Hans).
  apply ok2xx_test in Hok. rewrite Hok, Hbody.
  rewrite decodeItems_member by assumption.
  destruct (array_map (main.zeroItem k) (main.storeItem k) xs
              (main.extract k) names) as (items & -> & ->);
    [|reflexivity].
  eapply Forall2_impl; [exact Hall|].
  intros x n Hc. apply storeItem_carries, Hc.
Qed.

(** X12: one item that does not fit the item type makes the whole search
    fail: the names of the other items are not returned. *)
Theorem search_one_bad_item k term res pre key xs post x e :
  answered k term res ->
  main.ok2xx res ->
  http.Body res = inr (json.Object (pre ++ (key, json.Array xs) :: post)) ->
  json.lacks "items" pre = true ->
  json.selects "items" key = true ->
  json.lacks "items" post = true ->
  In x xs ->
  main.storeItem k x (main.zeroItem k) = inl e ->
  main.result (search k term) = (None, Some main.searchError).
Proof.
  intros Hans Hok Hbody Hpre Hkey Hpost Hin Hbad.
  rewrite (result_answered _ _ _ _ _ _ _ _ _ Hans).
  apply ok2xx_test in Hok. rewrite Hok, Hbody.
  rewrite decodeItems_member by assumption.
  destruct (array_refuses _ _ _ _ _ Hin Hbad) as [e' ->]. reflexivity.
Qed.

(** X13: a member for [items] that is neither [null] nor an array makes
    the search fail. *)
Theorem search_items_not_a_list k term res pre key v post :
  answered k term res ->
  main.ok2xx res ->
  http.Body res = inr (json.Object (pre ++ (key, v) :: post)) ->
  json.lacks "items" pre = true ->
  json.selects "items" key = true ->
  json.lacks "items" post = true ->
  v <> json.Null ->
  (forall xs, v <> json.Array xs) ->
  main.result (search k term) = (None, Some main.searchError).
Proof.
  intros Hans Hok Hbody Hpre Hkey Hpost Hnull Harr.
  rewrite (result_answered _ _ _ _ _ _ _ _ _ Hans).
  apply ok2xx_test in Hok. rewrite Hok, Hbody.
  rewrite decodeItems_member by assumption.
  destruct v as [| | | |xs|];
    first [ congruence
          | exfalso; exact (Harr _ eq_refl)
          | destruct k; reflexivity ].
Qed.

(** X14: in an envelope with one member for [items], [null] is accepted
    where a list, an item or a name is expected: an [items] that is [null]
    gives the empty result, and items that are [null] or have [null] for
    the extracted field give empty strings. *)
Theorem search_accepts_null k term res pre key v post :
  answered k term res ->
  main.ok2xx res ->
  http.Body res = inr (json.Object (pre ++ (key, v) :: post)) ->
  json.lacks "items" pre = true ->
  json.selects "items" key = true ->
  json.lacks "items" post = true ->
  (v = json.Null \/
   exists xs, v = json.Array xs /\ Forall (main.blank k) xs) ->
  main.result (search k term)
  = (Some (match v with
           | json.Array xs => map (fun _ => "") xs
           | _ => []
           end), None).
Proof.
  intros Hans Hok Hbody Hpre Hkey Hpost Hv.
  rewrite (result_answered _ _ _ _ _ _ _ _ _ Hans).
  apply ok2xx_test in Hok. rewrite Hok, Hbody.
  rewrite decodeItems_member by assumption.
  destruct Hv as [-> | (xs & -> & Hblank)]; [reflexivity|].
  assert (Hall : Forall2
            (fun x n => exists a,
               main.storeItem k x (main.zeroItem k) = inr a /\
               main.extract k a = n) xs (map (fun _ => "") xs)).
  { clear Hbody. induction Hblank as [|x xs Hx _ IH]; simpl; constructor;
      [|exact IH].
    exists (main.zeroItem k). split; [apply storeItem_blank, Hx|].
    destruct k; reflexivity. }
  destruct (array_map _ _ _ _ _ Hall) as (items & -> & ->). reflexivity.
Qed.
End MoreProperties.

(** ** The process as a whole *)

Section Process.

Variable httpError : Type.
Variable httpErrorText : httpError -> string.
Variable jsonErrorText : json.error -> string.
Variable NewRequest : string -> string -> httpError + http.Request.
Variable roundTrip : http.Request -> httpError + http.Response.

Local Abbreviation search debug :=
  (main.search debug httpError httpErrorText jsonErrorText NewRequest
     roundTrip).
Local Abbreviation executeCommand debug :=
  (main.executeCommand debug httpError httpErrorText jsonErrorText NewRequest
     roundTrip).
Local Abbreviation main_ :=
  (main.main httpError httpErrorText jsonErrorText NewRequest roundTrip).

Lemma sent_bind {A B : Type} (m : main.IO A) (k : A -> main.IO B) :
  main.sent (main.bind m k) = main.sent m ++ main.sent (k (main.result m)).
Proof.
  destruct m as [t a]. unfold main.bind, main.sent, main.trace, main.result.
  simpl. destruct (k a) as [t' b]. simpl. apply omap_app.
Qed.

Lemma result_bind {A B : Type} (m : main.IO A) (k : A -> main.IO B) :
  main.result (main.bind m k) = main.result (k (main.result m)).
Proof.
  destruct m as [t a]. unfold main.bind, main.result. simpl.
  destruct (k a) as [t' b]. reflexivity.
Qed.

Lemma sent_printDebug debug msg : main.sent (main.printDebug debug msg) = [].
Proof. destruct debug; reflexivity. Qed.

(** X15: the debug flag changes what is printed and nothing else: a
    command returns the same and sends the same requests with it and
    without it. *)
Theorem executeCommand_debug_only_prints d1 d2 command args :
  main.result (executeCommand d1 command args)
  = main.result (executeCommand d2 command args)
  /\ main.sent (executeCommand d1 command args)
     = main.sent (executeCommand d2 command args).
Proof.
  assert (Hs : forall k term,
            main.result (search d1 k term) = main.result (search d2 k term)
            /\ main.sent (search d1 k term) = main.sent (search d2 k term)).
  { intros k term. rewrite !result_search, !sent_search. split; reflexivity. }
  unfold main.executeCommand.
  rewrite !result_bind, !sent_bind, !sent_printDebug. simpl.
  destruct (String.eqb command "search-repos");
    [|destruct (String.eqb command "search-users")].
  - unfold main.executeSearchRepos.
    destruct (flag.Parse args) as [[|term more]|status];
      rewrite ?result_bind, ?sent_bind, ?sent_printDebug; simpl;
      try (split; reflexivity).
    destruct (Hs main.Repositories term) as [Hr Hse]. simpl in Hr, Hse.
    rewrite Hr, Hse.
    destruct (main.result (main.findRepos d2 _ _ _ _ _ term)) as [ns [e|]];
      split; reflexivity.
  - unfold main.executeSearchUsers.
    destruct (flag.Parse args) as [[|term more]|status];
      rewrite ?result_bind, ?sent_bind, ?sent_printDebug; simpl;
      try (split; reflexivity).
    destruct (Hs main.Users term) as [Hr Hse]. simpl in Hr, Hse.
    rewrite Hr, Hse.
    destruct (main.result (main.findUsers d2 _ _ _ _ _ term)) as [ns [e|]];
      split; reflexivity.
  - split; reflexivity.
Qed.

(** X16: the usage text is printed, with status 1, only when there is no
    argument at all; when flags are all there is, [main] takes the first
    element of an empty [flag.Args()] and the process panics. *)
Theorem main_without_command args debug :
  flag.ParseCommandLine false args = flag.Flags debug [] ->
  main_ args
  = match args with
    | [] => ([main.Stdout (main.usage +:+ main.newline)], main.Exit 1)
    | _ :: _ => ([], main.Panics)
    end.
Proof.
  intros Hp. unfold main.main. rewrite Hp.
  destruct args as [|a [|b args]]; reflexivity.
Qed.

Lemma ParseCommandLine_command k term :
  flag.ParseCommandLine false [main.commandOf k; term]
  = flag.Flags false [main.commandOf k; term].
Proof. destruct k; reflexivity. Qed.

(** X17: [prog search-repos term] and [prog search-users term], for a
    term that is not flag-like and a search that succeeds: the process
    sends the one request, prints the names joined by a comma and a space
    and ends with status 0. *)
Theorem main_prints_names k term names :
  flag.flagLike term = false ->
  main.result (search false k term) = (Some names, None) ->
  exists req,
    main_ [main.commandOf k; term]
    = ([main.Send req;
        main.Stdout (strings.Join names ", " +:+ main.newline)],
       main.Exit 0).
Proof.
  intros Hterm Hok.
  pose proof (Parse_not_flagLike term [] Hterm) as Hparse.
  destruct (executeCommand_search false httpError httpErrorText jsonErrorText
              NewRequest roundTrip k [term] term [] Hparse) as [Hres Htrace].
  rewrite Hok in Hres, Htrace. simpl in Hres, Htrace.
  assert (Hsearch : exists req,
            main.trace (search false k term) = [main.Send req]).
  { rewrite trace_search. rewrite result_search in Hok.
    destruct (NewRequest _ _) as [e|req]; [discriminate|].
    destruct (roundTrip _) as [e|res]; [discriminate|].
    destruct (_ || _); [discriminate|].
    destruct (main.decodeItems _ _); [discriminate|]. eauto. }
  destruct Hsearch as [req Hreq]. rewrite Hreq in Htrace. exists req.
  unfold main.main. rewrite ParseCommandLine_command.
  cbn [length Nat.ltb Nat.leb].
  destruct (executeCommand false (main.commandOf k) [term]) as [t r].
  unfold main.result, main.trace in Hres, Htrace. simpl in Hres, Htrace.
  subst t r. reflexivity.
Qed.

(** X18: the same runs when the search fails: with the debug flag off the
    process sends the request if there is one, prints the one line
    [failed to connect to github] and ends with status 1. *)
Theorem main_prints_the_error k term err :
  flag.flagLike term = false ->
  snd (main.result (search false k term)) = Some err ->
  main_ [main.commandOf k; term]
  = (map main.Send (main.sent (search false k term))
     ++ [main.Stdout ("failed to connect to github" +:+ main.newline)],
     main.Exit 1).
Proof.
  intros Hterm Herr.
  pose proof (Parse_not_flagLike term [] Hterm) as Hparse.
  destruct (executeCommand_search false httpError httpErrorText jsonErrorText
              NewRequest roundTrip k [term] term [] Hparse) as [Hres Htrace].
  assert (Hsearch :
            main.result (search false k term) = (None, Some main.searchError)
            /\ main.trace (search false k term)
               = map main.Send (main.sent (search false k term))).
  { rewrite sent_search, trace_search. rewrite result_search in Herr |- *.
    destruct (NewRequest _ _) as [e|req]; [split; reflexivity|].
    destruct (roundTrip _) as [e|res]; [split; reflexivity|].
    destruct (_ || _); [split; reflexivity|].
    destruct (main.decodeItems _ _); [split; reflexivity|discriminate]. }
  destruct Hsearch as [Hr Ht]. rewrite Hr in Hres, Htrace.
  rewrite Ht in Htrace. simpl in Hres, Htrace. rewrite app_nil_r in Htrace.
  unfold main.main. rewrite ParseCommandLine_command.
  cbn [length Nat.ltb Nat.leb].
  destruct (executeCommand false (main.commandOf k) [term]) as [t r].
  unfold main.result, main.trace in Hres, Htrace. simpl in Hres, Htrace.
  subst t r. reflexivity.
Qed.

End Process.

(** ** The libraries on their own *)

(** X19: [flag.Parse] consumes flags and nothing else, and stops at the
    first argument that is not one: the arguments it consumes are
    flag-like and none is [--], and what it leaves for [flag.Args()]
    either begins at the first argument that is not flag-like (or is
    empty, when there is none), or is what stands right behind the first
    [--]. *)
Theorem ParseCommandLine_keeps_the_rest debug args debug' rest :
  flag.ParseCommandLine debug args = flag.Flags debug' rest ->
  exists flags,
    Forall (fun s => flag.flagLike s = true /\ s <> "--") flags /\
    ((args = flags ++ rest /\
      match rest with
      | [] => True
      | s :: _ => flag.flagLike s = false
      end)
     \/ args = flags ++ "--" :: rest).
Proof.
  revert debug. induction args as [|s more IH]; intros debug.
  - intros [= <- <-]. exists []. auto.
  - assert (Hstep : forall d,
              flag.ParseCommandLine d more = flag.Flags debug' rest ->
              flag.flagLike s = true -> s <> "--" ->
              exists flags,
                Forall (fun s => flag.flagLike s = true /\ s <> "--") flags
                /\
                ((s :: more = flags ++ rest /\
                  match rest with
                  | [] => True
                  | s :: _ => flag.flagLike s = false
                  end)
                 \/ s :: more = flags ++ "--" :: rest)).
    { intros d Hd Hs Hne. destruct (IH d Hd) as (flags & Hall & Hcase).
      exists (s :: flags). split; [constructor; auto|].
      destruct Hcase as [[-> Hrest] | ->]; auto. }
    assert (Hstop : flag.flagLike s = false ->
              exists flags,
                Forall (fun s => flag.flagLike s = true /\ s <> "--") flags
                /\
                ((s :: more = flags ++ s :: more /\ flag.flagLike s = false)
                 \/ s :: more = flags ++ "--" :: s :: more)).
    { intros Hs. exists []. split; [constructor|]. left. auto. }
    destruct s as [|c0 [|c1 s2]];
      try (intros [= <- <-]; apply Hstop; reflexivity).
    cbn [flag.ParseCommandLine].
    destruct (Ascii.eqb c0 "-") eqn:Hc0; simpl negb; cbv iota;
      [|intros [= <- <-]; apply Hstop; simpl; exact Hc0].
    destruct (Ascii.eqb c1 "-" && String.eqb s2 "") eqn:Hdd.
    { apply andb_true_iff in Hdd as [Hc1 Hs2].
      apply Ascii.eqb_eq in Hc0, Hc1. apply String.eqb_eq in Hs2. subst.
      intros [= <- <-]. exists []. auto. }
    assert (Hne : String c0 (String c1 s2) <> "--").
    { intros [= -> -> ->]. discriminate. }
    destruct (if Ascii.eqb c1 "-" then s2 else String c1 s2)
      as [|n0 name']; [discriminate|].
    destruct (Ascii.eqb n0 "-" || Ascii.eqb n0 "="); [discriminate|].
    destruct (strings.Cut (String n0 name') "=") as [[name value] hasValue].
    destruct (String.eqb name "debug").
    + destruct hasValue.
      * destruct (strconv.ParseBool value) as [b|]; [|discriminate].
        intros H. apply (Hstep b H); [simpl; exact Hc0 | exact Hne].
      * intros H. apply (Hstep true H); [simpl; exact Hc0 | exact Hne].
    + destruct (_ || _); discriminate.
Qed.

(** X20: a member of an object whose key selects no field of the struct
    has no effect on what the struct decodes to. *)
Theorem object_ignores_unknown_members {T : Type}
    (fields : list (json.field T)) members v :
  json.object fields members v
  = json.object fields
      (List.filter
         (fun m => match json.findField fields (fst m) with
                   | Some _ => true
                   | None => false
                   end) members) v.
Proof.
  revert v. induction members as [|[key val] rest IH]; intros v;
    [reflexivity|].
  simpl. destruct (json.findField fields key) as [f|] eqn:Hf; simpl.
  - rewrite Hf. destruct (json.store f val v); [reflexivity | apply IH].
  - apply IH.
Qed.

Lemma escape_cons_escaped c r :
  url.all_bytes url.escaped (url.escape (String c r))
  = url.all_bytes url.escaped (url.escape r).
Proof. each_byte c; reflexivity. Qed.

(** An escaped text is made of letters, digits and the bytes
    [- _ . ~ + %] only, and it has at least as many bytes as the text and
    at most three times as many. *)
Lemma QueryEscape_alphabet s :
  url.all_bytes url.escaped (url.QueryEscape s) = true /\
  (String.length s <= String.length (url.QueryEscape s) <= 3 * String.length s)%nat.
Proof.
  unfold url.QueryEscape. induction s as [|c r [IHa IHl]];
    [split; [reflexivity | simpl; lia]|].
  split; [rewrite escape_cons_escaped; exact IHa|].
  assert (Hlen : String.length (url.escape (String c r))
                 = S (String.length (url.escape r))
                 \/ String.length (url.escape (String c r))
                    = S (S (S (String.length (url.escape r))))).
  { simpl. destruct (Ascii.eqb c " "); [auto|].
    destruct (url.shouldEscape c); auto. }
  change (String.length (String c r)) with (S (String.length r)).
  destruct Hlen as [-> | ->]; lia.
Qed.

(** ** Encoding a query and parsing it back *)

Lemma append_cons x (a b : string) : String x a +:+ b = String x (a +:+ b).
Proof. reflexivity. Qed.

Lemma append_nil_r (a : string) : a +:+ "" = a.
Proof.
  induction a as [|x a IH]; [reflexivity|].
  rewrite append_cons, IH. reflexivity.
Qed.

Lemma Contains_app a b sep :
  strings.Contains (a +:+ b) sep
  = strings.Contains a sep || strings.Contains b sep.
Proof.
  induction a as [|x a IH]; [reflexivity|].
  rewrite append_cons. simpl. rewrite IH, orb_assoc. reflexivity.
Qed.

Lemma Cut_app a b sep :
  strings.Contains a sep = false ->
  strings.Cut (a +:+ String sep b) sep = (a, b, true).
Proof.
  induction a as [|x a IH].
  - intros _. change ("" +:+ String sep b) with (String sep b). simpl.
    rewrite Ascii.eqb_refl. reflexivity.
  - intros H. simpl in H. apply orb_false_iff in H as [Hx Ha].
    rewrite append_cons. simpl. rewrite Hx, (IH Ha). reflexivity.
Qed.

Lemma piece_no_separator p sep :
  sep = "&"%char \/ sep = ";"%char ->
  strings.Contains (url.piece p) sep = false.
Proof.
  intros Hsep. unfold url.piece, url.QueryEscape.
  rewrite !Contains_app.
  rewrite !escape_no_separator
    by (destruct Hsep as [-> | ->]; reflexivity).
  destruct Hsep as [-> | ->]; reflexivity.
Qed.

Lemma Cut_piece p :
  strings.Cut (url.piece p) "="
  = (url.QueryEscape (fst p), url.QueryEscape (snd p), true).
Proof.
  unfold url.piece. apply Cut_app, escape_no_separator. reflexivity.
Qed.

Lemma piece_not_empty p : String.eqb (url.piece p) "" = false.
Proof.
  unfold url.piece. destruct (url.QueryEscape (fst p)); reflexivity.
Qed.

Lemma piece_more_not_empty p ps :
  String.eqb (url.piece p +:+ url.more ps) "" = false.
Proof.
  unfold url.piece. destruct (url.QueryEscape (fst p)); reflexivity.
Qed.

Lemma Cut_piece_more p ps :
  strings.Cut (url.piece p +:+ url.more ps) "&"
  = (url.piece p, url.joined ps, negb (String.eqb (url.more ps) "")).
Proof.
  destruct ps as [|q ps]; simpl.
  - rewrite append_nil_r. apply Cut_absent, piece_no_separator. auto.
  - apply Cut_app, piece_no_separator. auto.
Qed.

(** Parsing the pieces adds the pairs in order. *)
Lemma parseQuery_joined ps : forall fuel m err,
  (length ps < fuel)%nat ->
  url.parseQuery fuel m err (url.joined ps) = (fold_left url.add ps m, err).
Proof.
  induction ps as [|p ps IH]; intros fuel m err Hfuel.
  - destruct fuel; reflexivity.
  - destruct fuel as [|fuel]; [simpl in Hfuel; lia|].
    cbn [url.joined url.parseQuery].
    rewrite piece_more_not_empty, Cut_piece_more.
    rewrite piece_no_separator by auto.
    rewrite piece_not_empty, Cut_piece.
    unfold url.QueryUnescape, url.QueryEscape. rewrite !unescape_escape.
    cbn [fold_left]. apply IH. simpl in Hfuel. lia.
Qed.

Lemma length_append (a b : string) :
  String.length (a +:+ b) = (String.length a + String.length b)%nat.
Proof.
  induction a as [|x a IH]; [reflexivity|].
  rewrite append_cons. simpl. rewrite IH. reflexivity.
Qed.

Lemma length_joined ps : (length ps <= String.length (url.joined ps))%nat.
Proof.
  assert (Hp : forall p, (1 <= String.length (url.piece p))%nat).
  { intros p. unfold url.piece. rewrite !length_append. simpl. lia. }
  assert (Hm : forall qs, (length qs <= String.length (url.more qs))%nat).
  { induction qs as [|q qs IHq]; simpl; [lia|].
    rewrite !length_append. simpl. specialize (Hp q). lia. }
  destruct ps as [|p ps]; simpl; [lia|].
  rewrite length_append. specialize (Hp p). specialize (Hm ps). lia.
Qed.

Lemma parse_joined ps :
  url.parseQuery (S (String.length (url.joined ps))) ∅ None (url.joined ps)
  = (fold_left url.add ps ∅, None).
Proof.
  apply parseQuery_joined. pose proof (length_joined ps). lia.
Qed.

Lemma append_assoc (a b c : string) : (a +:+ b) +:+ c = a +:+ (b +:+ c).
Proof.
  induction a as [|x a IH]; [reflexivity|].
  rewrite !append_cons, IH. reflexivity.
Qed.

Lemma append_not_empty (a b : string) :
  String.eqb a "" = false -> String.eqb (a +:+ b) "" = false.
Proof. destruct a; [discriminate | reflexivity]. Qed.

(** What [Encode] appends to its buffer for one pair. *)
Lemma write_pieces ps : forall buf,
  String.eqb buf "" = false ->
  fold_left
    (fun buf p => (if String.eqb buf "" then buf else buf +:+ "&")
                    +:+ url.piece p) ps buf
  = buf +:+ url.more ps.
Proof.
  induction ps as [|p ps IH]; intros buf Hbuf; simpl.
  - rewrite append_nil_r. reflexivity.
  - rewrite Hbuf, IH.
    + rewrite !append_assoc. reflexivity.
    + apply append_not_empty, append_not_empty, Hbuf.
Qed.

Lemma write_joined ps :
  fold_left
    (fun buf p => (if String.eqb buf "" then buf else buf +:+ "&")
                    +:+ url.piece p) ps ""
  = url.joined ps.
Proof.
  destruct ps as [|p ps]; [reflexivity|]. simpl.
  change ("" +:+ url.piece p) with (url.piece p).
  apply write_pieces, piece_not_empty.
Qed.

Lemma write_keys (v : url.Values) keys : forall buf,
  fold_left
    (fun buf k =>
       let keyEscaped := url.QueryEscape k in
       fold_left
         (fun buf val =>
            (if String.eqb buf "" then buf else buf +:+ "&")
              +:+ keyEscaped +:+ "=" +:+ url.QueryEscape val)
         (url.index v k) buf)
    keys buf
  = fold_left
      (fun buf p => (if String.eqb buf "" then buf else buf +:+ "&")
                      +:+ url.piece p)
      (flat_map (fun k => map (pair k) (url.index v k)) keys) buf.
Proof.
  induction keys as [|k keys IH]; intros buf; [reflexivity|].
  simpl. rewrite fold_left_app, IH. f_equal.
  generalize (url.index v k) as vs. intros vs. revert buf.
  induction vs as [|val vs IHv]; intros buf; [reflexivity|].
  simpl. apply IHv.
Qed.

Lemma Encode_joined (v : url.Values) : url.Encode v = url.joined (url.pairs v).
Proof.
  unfold url.Encode, url.pairs.
  destruct (decide (v = ∅)) as [-> | _].
  { rewrite map_to_list_empty. reflexivity. }
  rewrite write_keys. apply write_joined.
Qed.

Lemma add_values k vs : forall m : url.Values,
  vs <> [] ->
  fold_left url.add (map (pair k) vs) m = <[k := url.index m k ++ vs]> m.
Proof.
  induction vs as [|val vs IH]; intros m Hvs; [congruence|].
  simpl. destruct vs as [|val' vs'].
  - reflexivity.
  - rewrite IH by discriminate. unfold url.add, url.index. simpl.
    rewrite lookup_insert_eq. simpl. rewrite insert_insert_eq.
    rewrite <- app_assoc. reflexivity.
Qed.

Lemma add_pairs (v : url.Values) ks : forall m0 : url.Values,
  NoDup ks ->
  (forall k, k ∈ ks ->
     m0 !! k = None /\ exists vs, v !! k = Some vs /\ vs <> []) ->
  forall k,
    fold_left url.add
      (flat_map (fun k => map (pair k) (url.index v k)) ks) m0 !! k
    = if decide (k ∈ ks) then v !! k else m0 !! k.
Proof.
  induction ks as [|k0 ks IH]; intros m0 Hnd Hks k.
  - simpl. destruct (decide (k ∈ [])) as [Hin|_]; [|reflexivity].
    apply elem_of_nil in Hin. contradiction.
  - apply NoDup_cons in Hnd as [Hk0 Hnd].
    destruct (Hks k0) as (Hm0 & vs & Hv & Hvs); [left|].
    simpl. rewrite fold_left_app.
    unfold url.index at 2. rewrite Hv. simpl.
    rewrite add_values by exact Hvs.
    unfold url.index. rewrite Hm0. simpl.
    rewrite IH; [|exact Hnd|].
    + destruct (decide (k ∈ ks)) as [Hin|Hout].
      * rewrite decide_True by (right; exact Hin). reflexivity.
      * destruct (decide (k = k0)) as [->|Hne].
        -- rewrite decide_True by left. rewrite lookup_insert_eq, Hv.
           reflexivity.
        -- rewrite decide_False.
           ++ rewrite lookup_insert_ne by congruence. reflexivity.
           ++ intros Hin. apply elem_of_cons in Hin as [? | ?]; tauto.
    + intros k' Hk'. destruct (Hks k') as (Hm' & Hv'); [right; exact Hk'|].
      split; [|exact Hv'].
      rewrite lookup_insert_ne; [exact Hm'|].
      intros ->. contradiction.
Qed.

Lemma map_fst_fmap {A B : Type} (l : list (A * B)) : map fst l = l.*1.
Proof. reflexivity. Qed.

Lemma add_all_pairs (v : url.Values) :
  (forall k vs, v !! k = Some vs -> vs <> []) ->
  fold_left url.add (url.pairs v) ∅ = v.
Proof.
  intros Hne. apply map_eq. intros k. unfold url.pairs.
  assert (Hkeys : forall k',
            k' ∈ url.sortKeys (map fst (map_to_list v))
            <-> is_Some (v !! k')).
  { intros k'. unfold url.sortKeys. rewrite merge_sort_Permutation.
    rewrite map_fst_fmap, list_elem_of_fmap. split.
    - intros ([k1 vs] & -> & Hin). apply elem_of_map_to_list in Hin.
      simpl. eauto.
    - intros [vs Hvs]. exists (k', vs). split; [reflexivity|].
      apply elem_of_map_to_list, Hvs. }
  rewrite add_pairs.
  - destruct (decide _) as [_|Hout]; [reflexivity|].
    rewrite lookup_empty. symmetry. apply eq_None_not_Some.
    rewrite <- Hkeys. exact Hout.
  - unfold url.sortKeys. rewrite merge_sort_Permutation, map_fst_fmap.
    apply NoDup_fst_map_to_list.
  - intros k' Hk'. split; [apply lookup_empty|].
    apply Hkeys in Hk' as [vs Hvs]. exists vs. split; [exact Hvs|].
    eapply Hne, Hvs.
Qed.

(** Every key of a parsed query has a value. *)
Lemma parseQuery_values fuel : forall (m : url.Values) err query,
  (forall k vs, m !! k = Some vs -> vs <> []) ->
  forall k vs,
    fst (url.parseQuery fuel m err query) !! k = Some vs -> vs <> [].
Proof.
  induction fuel as [|fuel IH]; intros m err query Hm; [exact Hm|].
  cbn [url.parseQuery].
  destruct (String.eqb query ""); [exact Hm|].
  destruct (strings.Cut query "&") as [[key query'] found].
  destruct (strings.Contains key ";"); [apply IH, Hm|].
  destruct (String.eqb key ""); [apply IH, Hm|].
  destruct (strings.Cut key "=") as [[key0 value0] found0].
  destruct (url.QueryUnescape key0) as [e|key1]; [apply IH, Hm|].
  destruct (url.QueryUnescape value0) as [e|value1]; [apply IH, Hm|].
  apply IH. intros k vs.
  destruct (decide (k = key1)) as [->|Hne].
  - rewrite lookup_insert_eq. intros [= <-].
    destruct (url.index m key1); discriminate.
  - rewrite lookup_insert_ne by congruence. apply Hm.
Qed.

(** The loop of [parseQuery] undoes [Encode]. *)
Lemma parse_encoded (v : url.Values) :
  (forall k vs, v !! k = Some vs -> vs <> []) ->
  url.parseQuery (S (String.length (url.Encode v))) ∅ None (url.Encode v)
  = (v, None).
Proof.
  intros Hne. rewrite Encode_joined, parse_joined.
  rewrite add_all_pairs by exact Hne. reflexivity.
Qed.

Lemma Query_values u k vs : url.Query u !! k = Some vs -> vs <> [].
Proof.
  unfold url.Query, url.ParseQuery.
  destruct (url.maxQueryParams <? _)%N.
  - cbn [fst]. rewrite lookup_empty. discriminate.
  - apply parseQuery_values. intros k' vs'. rewrite lookup_empty.
    discriminate.
Qed.

Lemma parse_withTerm req term :
  let query := url.RawQuery (http.URL (main.withTerm req term)) in
  url.parseQuery (S (String.length query)) ∅ None query
  = (<["q" := [term]]> (url.Query (http.URL req)), None).
Proof.
  unfold main.withTerm, url.Values_Set. simpl.
  apply parse_encoded. intros k vs.
  destruct (decide (k = "q")) as [->|Hne].
  - rewrite lookup_insert_eq. intros [= <-]. discriminate.
  - rewrite lookup_insert_ne by congruence. apply Query_values.
Qed.

Lemma all_bytes_app p a b :
  url.all_bytes p (a +:+ b) = url.all_bytes p a && url.all_bytes p b.
Proof.
  induction a as [|x a IH]; [reflexivity|].
  rewrite append_cons. simpl. rewrite IH, andb_assoc. reflexivity.
Qed.

Lemma all_bytes_weaken (p q : ascii -> bool) s :
  (forall c, p c = true -> q c = true) ->
  url.all_bytes p s = true -> url.all_bytes q s = true.
Proof.
  intros Hpq. induction s as [|c s IH]; simpl; [reflexivity|].
  intros H. apply andb_true_iff in H as [Hc Hs].
  rewrite (Hpq c Hc), (IH Hs). reflexivity.
Qed.

Lemma piece_alphabet p : url.all_bytes url.queryByte (url.piece p) = true.
Proof.
  assert (He : forall s,
            url.all_bytes url.queryByte (url.QueryEscape s) = true).
  { intros s. apply (all_bytes_weaken url.escaped).
    - intros c Hc. unfold url.queryByte. rewrite Hc. reflexivity.
    - apply QueryEscape_alphabet. }
  unfold url.piece. rewrite !all_bytes_app, !He. reflexivity.
Qed.

(** X21: the query string of the request that is sent is made of letters,
    digits and the bytes [- _ . ~ + % & =] only, whatever bytes the term
    has. *)
Theorem withTerm_query_alphabet req term :
  url.all_bytes url.queryByte
    (url.RawQuery (http.URL (main.withTerm req term))) = true.
Proof.
  unfold main.withTerm. simpl. rewrite Encode_joined.
  generalize (url.pairs
                (url.Values_Set (url.Query (http.URL req)) "q" term)).
  intros ps.
  assert (Hm : forall qs, url.all_bytes url.queryByte (url.more qs) = true).
  { induction qs as [|q qs IH]; [reflexivity|].
    simpl. rewrite !all_bytes_app, piece_alphabet, IH. reflexivity. }
  destruct ps as [|p ps]; [reflexivity|].
  simpl. rewrite all_bytes_app, piece_alphabet, Hm. reflexivity.
Qed.

(** X22: two different terms never give the same request. *)
Theorem withTerm_injective req s t :
  s <> t -> main.withTerm req s <> main.withTerm req t.
Proof.
  intros Hne H. apply Hne.
  pose proof (parse_withTerm req s) as Hs. cbv zeta in Hs.
  rewrite H in Hs. pose proof (parse_withTerm req t) as Ht. cbv zeta in Ht.
  rewrite Ht in Hs. injection Hs as Hs.
  apply (f_equal (fun m : url.Values => m !! "q")) in Hs.
  rewrite !lookup_insert_eq in Hs. congruence.
Qed.

(** ** The further properties at concrete inputs *)

(** X1 for the command [search]. *)
Lemma executeCommand_unknown_witness :
  "search" <> "search-repos" /\ "search" <> "search-users" /\
  main.result (sample.executeCommand true sample.down "search" ["golang"])
  = main.Returns (Some (errors.New ("invalid command: '" +:+ "search" +:+ "'")))
  /\ main.sent (sample.executeCommand true sample.down "search" ["golang"])
     = [].
Proof.
  assert (Hr : "search" <> "search-repos") by discriminate.
  assert (Hu : "search" <> "search-users") by discriminate.
  split; [exact Hr|]. split; [exact Hu|].
  apply (executeCommand_unknown true string id sample.jsonErrorText
           sample.NewRequest sample.down "search" ["golang"] Hr Hu).
Defined.

(** X2 for a search that is answered. *)
Lemma search_sends_once_witness :
  let net := sample.answer 200 (inr sample.golang) in
  let sentReq :=
    {| http.Method := "GET";
       http.URL := {| url.Scheme := "https"; url.Host := "api.github.com";
                      url.Path := "/search/repositories";
                      url.RawQuery := "q=golang" |} |} in
  In sentReq (main.sent (sample.search false net main.Repositories "golang"))
  /\ main.sent (sample.search false net main.Repositories "golang")
     = [sentReq].
Proof.
  intros net sentReq.
  assert (Hin : In sentReq
                  (main.sent
                     (sample.search false net main.Repositories "golang")))
    by (vm_compute; left; reflexivity).
  split; [exact Hin|].
  apply (search_sends_once false string id sample.jsonErrorText
           sample.NewRequest net main.Repositories "golang" sentReq Hin).
Defined.

(** X3 for the status 500 with the debug flag on. *)
Lemma search_bad_status_is_silent_witness :
  let body : json.error + json.Value := inl (json.ScanError "EOF") in
  (500 < 200 \/ 300 <= 500)%Z /\
  exists req,
    main.trace (sample.search true (sample.answer 500 body) main.Users "x")
    = [main.Send req].
Proof.
  intros body.
  assert (Hbad : (500 < 200 \/ 300 <= 500)%Z) by (right; lia).
  split; [exact Hbad|].
  apply (search_bad_status_is_silent true string id sample.jsonErrorText
           sample.NewRequest (sample.answer 500 body) main.Users "x"
           {| http.StatusCode := 500; http.Body := body |}
           (sample_answered main.Users "x" 500 body) Hbad).
Defined.

(** X4 when the network is down. *)
Lemma search_quiet_without_debug_witness :
  false = false /\
  ~ In (main.Stdout "[DEBUG]: dial tcp: connection refused")
       (main.trace (sample.search false sample.down main.Users "x")).
Proof.
  split; [reflexivity|].
  apply (search_quiet_without_debug false string id sample.jsonErrorText
           sample.NewRequest sample.down main.Users "x" _ eq_refl).
Defined.

(** X5 when the network is down. *)
Lemma search_failure_is_traced_witness :
  let req := {| http.Method := "GET";
                http.URL := {| url.Scheme := "https";
                               url.Host := "api.github.com";
                               url.Path := "/search/users";
                               url.RawQuery := "" |} |} in
  sample.NewRequest http.MethodGet (main.endpoint main.Users) = inr req /\
  sample.down (main.withTerm req "x") = inl "dial tcp: connection refused" /\
  main.trace (sample.search true sample.down main.Users "x")
  = [main.Send (main.withTerm req "x");
     main.Stdout ("[DEBUG]: " +:+ "dial tcp: connection refused"
                    +:+ main.newline)].
Proof.
  intros req. split; [reflexivity|]. split; [reflexivity|].
  apply (proj1 (proj2 (search_failure_is_traced true string id
                         sample.jsonErrorText sample.NewRequest sample.down
                         main.Users "x" eq_refl))
           req "dial tcp: connection refused" eq_refl eq_refl).
Defined.

(** X6 for two positional arguments. *)
Lemma executeCommand_first_argument_witness :
  let net := sample.answer 200 (inr sample.golang) in
  flag.Parse ["golang"; "rust"] = flag.Parsed ["golang"; "rust"] /\
  main.result (sample.executeCommand false net "search-repos"
                 ["golang"; "rust"])
  = main.Returns
      (snd (main.result (sample.search false net main.Repositories "golang")))
  /\ main.sent (sample.executeCommand false net "search-repos"
                  ["golang"; "rust"])
     = main.sent (sample.search false net main.Repositories "golang").
Proof.
  intros net. split; [reflexivity|].
  apply (executeCommand_first_argument false string id sample.jsonErrorText
           sample.NewRequest net main.Repositories ["golang"; "rust"]
           "golang" ["rust"] eq_refl).
Defined.

(** X7 for the envelope with two names. *)
Lemma executeCommand_prints_names_witness :
  let net := sample.answer 200 (inr sample.golang) in
  main.result (sample.search true net main.Repositories "golang")
  = (Some ["golang/go"; "golang/tools"], None) /\
  main.result (sample.executeCommand true net "search-repos" ["golang"])
  = main.Returns None /\
  last (main.trace (sample.executeCommand true net "search-repos" ["golang"]))
  = Some (main.Stdout ("golang/go, golang/tools" +:+ main.newline)).
Proof.
  intros net.
  assert (Hok : main.result (sample.search true net main.Repositories "golang")
                = (Some ["golang/go"; "golang/tools"], None))
    by (vm_compute; reflexivity).
  split; [exact Hok|].
  apply (executeCommand_prints_names true string id sample.jsonErrorText
           sample.NewRequest net main.Repositories ["golang"] "golang" []
           ["golang/go"; "golang/tools"] eq_refl Hok).
Defined.

(** X8 when the network is down. *)
Lemma executeCommand_failure_is_quiet_witness :
  snd (main.result (sample.search false sample.down main.Users "x"))
  = Some main.searchError /\
  ~ In (main.Stdout ("failed to connect to github" +:+ main.newline))
       (main.trace (sample.executeCommand false sample.down "search-users"
                      ["x"])).
Proof.
  assert (He : snd (main.result
                      (sample.search false sample.down main.Users "x"))
               = Some main.searchError) by (vm_compute; reflexivity).
  split; [exact He|].
  apply (executeCommand_failure_is_quiet false string id sample.jsonErrorText
           sample.NewRequest sample.down main.Users ["x"] "x" []
           main.searchError _ eq_refl eq_refl He).
Defined.

(** X10 for [search-users -debug x]. *)
Lemma executeCommand_flag_exits_witness :
  flag.flagLike "-debug" = true /\ "-debug" <> "--" /\
  exists status,
    (status = 0 \/ status = 2)%Z /\
    main.result (sample.executeCommand false sample.down "search-users"
                   ["-debug"; "x"])
    = main.Exits status /\
    main.sent (sample.executeCommand false sample.down "search-users"
                 ["-debug"; "x"]) = [].
Proof.
  assert (Hne : "-debug" <> "--") by discriminate.
  split; [reflexivity|]. split; [exact Hne|].
  apply (executeCommand_flag_exits false string id sample.jsonErrorText
           sample.NewRequest sample.down main.Users "-debug" ["x"]
           eq_refl Hne).
Defined.

(** X11 for two items with other members, one under the key [FULL_NAME]. *)
Lemma search_returns_the_names_witness :
  let xs :=
    [json.Object [("id", json.Number "1"); ("full_name", json.Str "a/b")];
     json.Object [("FULL_NAME", json.Str "c/d"); ("fork", json.Bool false)]]
  in
  let body : json.error + json.Value :=
    inr (json.Object [("total_count", json.Number "2");
                      ("items", json.Array xs)]) in
  Forall2 (main.carries main.Repositories) xs ["a/b"; "c/d"] /\
  main.result
    (sample.search false (sample.answer 200 body) main.Repositories "x")
  = (Some ["a/b"; "c/d"], None).
Proof.
  intros xs body.
  assert (Hall : Forall2 (main.carries main.Repositories) xs ["a/b"; "c/d"]).
  { constructor; [|constructor; [|constructor]].
    - exists [("id", json.Number "1")], "full_name", [].
      repeat split; reflexivity.
    - exists [], "FULL_NAME", [("fork", json.Bool false)].
      repeat split; reflexivity. }
  split; [exact Hall|].
  apply (search_returns_the_names false string id sample.jsonErrorText
           sample.NewRequest (sample.answer 200 body) main.Repositories "x"
           {| http.StatusCode := 200; http.Body := body |}
           [("total_count", json.Number "2")] "items" xs []
           ["a/b"; "c/d"]).
  - apply sample_answered.
  - unfold main.ok2xx; simpl; lia.
  - reflexivity.
  - reflexivity.
  - reflexivity.
  - reflexivity.
  - exact Hall.
Defined.

(** X12 for a list whose second item is a number. *)
Lemma search_one_bad_item_witness :
  let xs := [json.Object [("login", json.Str "torvalds")]; json.Number "7"] in
  let body : json.error + json.Value :=
    inr (json.Object [("items", json.Array xs)]) in
  In (json.Number "7") xs /\
  main.storeItem main.Users (json.Number "7") (main.zeroItem main.Users)
  = inl (json.UnmarshalTypeError "number" "main.user") /\
  main.result (sample.search false (sample.answer 200 body) main.Users "x")
  = (None, Some main.searchError).
Proof.
  intros xs body.
  assert (Hin : In (json.Number "7") xs) by (right; left; reflexivity).
  split; [exact Hin|]. split; [reflexivity|].
  apply (search_one_bad_item false string id sample.jsonErrorText
           sample.NewRequest (sample.answer 200 body) main.Users "x"
           {| http.StatusCode := 200; http.Body := body |}
           [] "items" xs [] (json.Number "7")
           (json.UnmarshalTypeError "number" "main.user")).
  - apply sample_answered.
  - unfold main.ok2xx; simpl; lia.
  - reflexivity.
  - reflexivity.
  - reflexivity.
  - reflexivity.
  - exact Hin.
  - reflexivity.
Defined.

(** X13 for an [items] that is an object. *)
Lemma search_items_not_a_list_witness :
  let v := json.Object [("login", json.Str "torvalds")] in
  let body : json.error + json.Value := inr (json.Object [("items", v)]) in
  v <> json.Null /\
  (forall xs, v <> json.Array xs) /\
  main.result (sample.search false (sample.answer 200 body) main.Users "x")
  = (None, Some main.searchError).
Proof.
  intros v body.
  assert (Hn : v <> json.Null) by discriminate.
  assert (Ha : forall xs, v <> json.Array xs) by (intros xs; discriminate).
  split; [exact Hn|]. split; [exact Ha|].
  apply (search_items_not_a_list false string id sample.jsonErrorText
           sample.NewRequest (sample.answer 200 body) main.Users "x"
           {| http.StatusCode := 200; http.Body := body |}
           [] "items" v []).
  - apply sample_answered.
  - unfold main.ok2xx; simpl; lia.
  - reflexivity.
  - reflexivity.
  - reflexivity.
  - reflexivity.
  - exact Hn.
  - exact Ha.
Defined.

(** X14 for a list of a [null] and an item whose name is [null]. *)
Lemma search_accepts_null_witness :
  let xs := [json.Null; json.Object [("login", json.Null)]] in
  let body : json.error + json.Value :=
    inr (json.Object [("items", json.Array xs)]) in
  Forall (main.blank main.Users) xs /\
  main.result (sample.search false (sample.answer 200 body) main.Users "x")
  = (Some [""; ""], None).
Proof.
  intros xs body.
  assert (Hb : Forall (main.blank main.Users) xs).
  { constructor; [left; reflexivity|].
    constructor; [|constructor].
    right. eexists. split; [reflexivity|].
    intros key v [[= <- <-] | []] _. reflexivity. }
  split; [exact Hb|].
  apply (search_accepts_null false string id sample.jsonErrorText
           sample.NewRequest (sample.answer 200 body) main.Users "x"
           {| http.StatusCode := 200; http.Body := body |}
           [] "items" (json.Array xs) []).
  - apply sample_answered.
  - unfold main.ok2xx; simpl; lia.
  - reflexivity.
  - reflexivity.
  - reflexivity.
  - reflexivity.
  - right. exists xs. split; [reflexivity | exact Hb].
Defined.

(** X16 for [prog -debug]. *)
Lemma main_without_command_witness :
  flag.ParseCommandLine false ["-debug"] = flag.Flags true [] /\
  sample.main sample.down ["-debug"] = ([], main.Panics).
Proof.
  split; [reflexivity|].
  apply (main_without_command string id sample.jsonErrorText
           sample.NewRequest sample.down ["-debug"] true eq_refl).
Defined.

(** X17 for [prog search-repos golang]. *)
Lemma main_prints_names_witness :
  let net := sample.answer 200 (inr sample.golang) in
  flag.flagLike "golang" = false /\
  main.result (sample.search false net main.Repositories "golang")
  = (Some ["golang/go"; "golang/tools"], None) /\
  exists req,
    sample.main net ["search-repos"; "golang"]
    = ([main.Send req;
        main.Stdout ("golang/go, golang/tools" +:+ main.newline)],
       main.Exit 0).
Proof.
  intros net.
  assert (Hok : main.result
                  (sample.search false net main.Repositories "golang")
                = (Some ["golang/go"; "golang/tools"], None))
    by (vm_compute; reflexivity).
  split; [reflexivity|]. split; [exact Hok|].
  apply (main_prints_names string id sample.jsonErrorText sample.NewRequest
           net main.Repositories "golang" ["golang/go"; "golang/tools"]
           eq_refl Hok).
Defined.

(** X18 for [prog search-users x] with the status 403. *)
Lemma main_prints_the_error_witness :
  let net := sample.answer 403 (inr sample.golang) in
  flag.flagLike "x" = false /\
  snd (main.result (sample.search false net main.Users "x"))
  = Some main.searchError /\
  sample.main net ["search-users"; "x"]
  = (map main.Send (main.sent (sample.search false net main.Users "x"))
     ++ [main.Stdout ("failed to connect to github" +:+ main.newline)],
     main.Exit 1).
Proof.
  intros net.
  assert (He : snd (main.result (sample.search false net main.Users "x"))
               = Some main.searchError) by (vm_compute; reflexivity).
  split; [reflexivity|]. split; [exact He|].
  apply (main_prints_the_error string id sample.jsonErrorText
           sample.NewRequest net main.Users "x" main.searchError eq_refl He).
Defined.

(** X19 for [prog -debug=false --debug search-repos -x]. *)
Lemma ParseCommandLine_keeps_the_rest_witness :
  flag.ParseCommandLine false ["-debug=false"; "--debug"; "search-repos"; "-x"]
  = flag.Flags true ["search-repos"; "-x"] /\
  exists flags,
    Forall (fun s => flag.flagLike s = true /\ s <> "--") flags /\
    ((["-debug=false"; "--debug"; "search-repos"; "-x"]
      = flags ++ ["search-repos"; "-x"] /\
      flag.flagLike "search-repos" = false)
     \/ ["-debug=false"; "--debug"; "search-repos"; "-x"]
        = flags ++ "--" :: ["search-repos"; "-x"]).
Proof.
  split; [reflexivity|].
  apply (ParseCommandLine_keeps_the_rest false
           ["-debug=false"; "--debug"; "search-repos"; "-x"] true
           ["search-repos"; "-x"] eq_refl).
Defined.

(** X22 for the terms [go] and [Go]. *)
Lemma withTerm_injective_witness :
  let req := {| http.Method := "GET";
                http.URL := {| url.Scheme := "https";
                               url.Host := "api.github.com";
                               url.Path := "/search/users";
                               url.RawQuery := "" |} |} in
  "go" <> "Go" /\ main.withTerm req "go" <> main.withTerm req "Go".
Proof.
  intros req.
  assert (Hne : "go" <> "Go") by discriminate.
  split; [exact Hne|].
  apply (withTerm_injective req "go" "Go" Hne).
Defined.

(** X26 for [search-users -- -x]. *)
Lemma executeSearchUsers_debug_label_witness :
  flag.Parse ["--"; "-x"] = flag.Parsed ["-x"] /\
  In (main.Stdout ("[DEBUG]: " +:+ ("[search-repos] Search Term: " +:+ "-x")
                     +:+ main.newline))
     (main.trace (sample.executeCommand true sample.down "search-users"
                    ["--"; "-x"])).
Proof.
  split; [reflexivity|].
  apply (executeSearchUsers_debug_label true string id sample.jsonErrorText
           sample.NewRequest sample.down ["--"; "-x"] "-x" [] eq_refl
           eq_refl).
Defined.
